(** * GeoPySpark: the Python proxy layer over the raster engine

    A shallow embedding of [geopyspark/geotrellis/rdd.py]: the helper
    [_reclassify] and the wrapper classes [RDDWrapper], [RasterRDD] and
    [TiledRasterRDD].

    The wrappers hold a py4j handle ([srdd]) to a collection living in the
    JVM and forward every substantive operation to it.  The embedding keeps
    three things apart:

    - the Python objects, in a heap of wrappers addressed by reference, so
      that "returns [self]" and "returns a new wrapper" are different;
    - the requests that cross into the JVM, appended to a log in the order
      the Python code issues them;
    - the answers of the JVM, taken from type classes (one field per remote
      method) since the engine is not part of the Python sources.

    Python exceptions are values of [exn]; a method is a computation in the
    monad [M] (state = heap and request log, result = value or exception). *)

From Stdlib Require Import ZArith Lia.
From Stdlib Require Import Floats.SpecFloat.
From stdpp Require Import base option list strings pretty.

Set Default Proof Using "Type".

(** ** Python numbers *)

(** A Python [float] is an IEEE-754 binary64 value. *)
Definition float : Type := spec_float.
Definition prec : Z := 53.
Definition emax : Z := 1024.

(** [float('nan')] *)
Definition nan : float := S754_nan.

Inductive number : Type :=
| PyInt (z : Z)
| PyFloat (f : float).

(** Truth value of a number: zero (of either sign, for floats) is false;
    NaN is true. *)
Definition number_truthy (n : number) : bool :=
  match n with
  | PyInt z => negb (z =? 0)%Z
  | PyFloat (S754_zero _) => false
  | PyFloat _ => true
  end.

(** Truth value of an optional number ([None] is false). *)
Definition truthy (v : option number) : bool :=
  match v with
  | None => false
  | Some n => number_truthy n
  end.

(** [int == float] compares the exact values. *)
Definition float_eq_int (f : float) (z : Z) : bool :=
  match f with
  | S754_zero _ => (z =? 0)%Z
  | S754_finite s m e =>
      let v := cond_Zopp s (Zpos m) in
      if (0 <=? e)%Z then (z =? v * 2 ^ e)%Z else (z * 2 ^ (- e) =? v)%Z
  | _ => false
  end.

(** [a == b] on numbers, the comparison a [dict] uses for keys. *)
Definition number_eqb (a b : number) : bool :=
  match a, b with
  | PyInt x, PyInt y => (x =? y)%Z
  | PyInt x, PyFloat f => float_eq_int f x
  | PyFloat f, PyInt y => float_eq_int f y
  | PyFloat f, PyFloat g => SFeqb f g
  end.

(** The type objects [reclassify] is called with: [int], [float], and
    [str] for a type that is neither (no number and no tuple is an
    instance of it). *)
Inductive pytype : Type := TyInt | TyFloat | TyStr.

Definition number_isinstance (n : number) (t : pytype) : bool :=
  match n, t with
  | PyInt _, TyInt => true
  | PyFloat _, TyFloat => true
  | _, _ => false
  end.

(** ** Exceptions *)

(** The exception classes the module raises, with the constructor
    arguments kept as strings.  Where the source formats values into the
    message ([str.format]), the template is kept as it is written. *)
Inductive exn : Type :=
| ValueError (args : list string)
| TypeError (args : list string)
| IndexError (args : list string)
| OverflowError (args : list string)
| ReferenceError (args : list string).

(** [str(i)] for an [int]. *)
Definition str (z : Z) : string := pretty z.

(** [float(x)] for a number: an [int] is rounded to the nearest double and
    overflows past the largest one. *)
Definition to_float (n : number) : exn + float :=
  match n with
  | PyFloat f => inr f
  | PyInt z =>
      match binary_normalize prec emax z 0 false with
      | S754_infinity _ => inl (OverflowError ["int too large to convert to float"])
      | f => inr f
      end
  end.

(** ** A [dict] keyed by numbers

    Entries in insertion order; [d[k] = v] replaces the value of an
    existing key (found with [==]) and keeps its position and key object,
    and appends otherwise. *)
Definition dict : Type := list (number * number).

Fixpoint dict_set (d : dict) (k v : number) : dict :=
  match d with
  | [] => [(k, v)]
  | (k', v') :: d' =>
      if number_eqb k' k then (k', v) :: d' else (k', v') :: dict_set d' k v
  end.

Fixpoint dict_get (d : dict) (k : number) : option number :=
  match d with
  | [] => None
  | (k', v') :: d' => if number_eqb k' k then Some v' else dict_get d' k
  end.

(** ** Documents exchanged with the engine

    The layer metadata travels as JSON text; [json.loads] and [json.dumps]
    are the two directions of one codec, and a request is modelled as
    carrying the document itself.  The records follow the keys the module
    subscripts: [bounds / minKey / col], [layoutDefinition / tileLayout /
    tileRows]. *)
Record Extent : Type := {
  xmin : float; ymin : float; xmax : float; ymax : float
}.

Record TileLayout : Type := {
  layoutCols : Z; layoutRows : Z; tileCols : Z; tileRows : Z
}.

Record LayoutDefinition : Type := {
  extent : Extent;
  tileLayout : TileLayout
}.

(** A spatial key has no [instant]; a space-time key has one. *)
Record Key : Type := { col : Z; row : Z; instant : option Z }.

Record Bounds : Type := { minKey : Key; maxKey : Key }.

(** The metadata document; [data_extent] is its key [extent], the extent
    of the data, beside the extent of the layout in [layoutDefinition]. *)
Record Metadata : Type := {
  data_extent : Extent;
  layoutDefinition : LayoutDefinition;
  bounds : Bounds;
  cellType : string;
  crs : string
}.

(** [a != b] on two tile layouts is decided field by field. *)
Global Instance TileLayout_eq_dec : EqDecision TileLayout.
Proof. solve_decision. Defined.

(** ** Constants

    [geopyspark.geotrellis.constants] is imported by the module but is not
    among its sources: the names it takes from there are parameters. *)
Class Constants : Type := {
  RESAMPLE_METHODS : list string;
  OPERATIONS : list string;
  SLOPE : string;
  ASPECT : string;
  SQUARE : string;
  NEIGHBORHOODS : list string;
  NEARESTNEIGHBOR : string;
  FLOAT : string;
  TILE : string;
  SPATIAL : string;
  LESSTHANOREQUALTO : string;
  NODATAINT : Z;
  CELL_TYPES : list string
}.

(** ** The runtime on the other side of the bridge *)

(** Opaque types: py4j handles, the session context, shapely geometries
    with [shapely.wkt.dumps], Avro schemas and encoded tiles with the value
    serializer's [loads]. *)
Class Runtime : Type := {
  JavaObject : Type;
  GeoPyContext : Type;
  SparkContext : Type;
  sc : GeoPyContext -> SparkContext;
  Geometry : Type;
  dumps : Geometry -> string;
  Schema : Type;
  Encoded : Type;
  Tile : Type;
  loads : Schema -> string -> Encoded -> list Tile
}.

(** [pyspark.storagelevel.StorageLevel] *)
Record StorageLevel : Type := {
  useDisk : bool; useMemory : bool; useOffHeap : bool;
  deserialized : bool; replication : Z
}.

Definition MEMORY_ONLY : StorageLevel :=
  {| useDisk := false; useMemory := true; useOffHeap := false;
     deserialized := false; replication := 1 |}.

(** The six remote methods behind the arithmetic operators. *)
Inductive local_op : Type :=
| localAdd | localSubtract | reverseLocalSubtract
| localMultiply | localDivide | reverseLocalDivide.

(** ** Requests and answers *)

Section Bridge.
Context {R : Runtime}.

(** What an arithmetic operator hands to the remote method: a number, the
    handle of another tiled collection, or a list of handles. *)
Inductive local_arg : Type :=
| ArgNumber (n : number)
| ArgHandle (h : JavaObject)
| ArgHandles (hs : list JavaObject).

(** One constructor per remote method the module calls on a handle, with
    the arguments as marshalled by the Python side. *)
Inductive Request : Type :=
| Call_persist (h : JavaObject) (level : StorageLevel)
| Call_unpersist (h : JavaObject)
| Call_convertDataType (h : JavaObject) (new_type : string)
| Call_collectMetadata (h : JavaObject) (e : Extent) (l : TileLayout) (crs : string)
| Call_collectMetadata_size (h : JavaObject) (tile_size crs : string)
| Call_reproject (h : JavaObject) (target_crs resample_method : string)
| Call_cutTiles (h : JavaObject) (md : Metadata) (resample_method : string)
| Call_tileToLayout (h : JavaObject) (md : Metadata) (resample_method : string)
| Call_reclassify (h : JavaObject) (new_dict : dict) (boundary_strategy : string)
    (nodata : option number)
| Call_reclassifyDouble (h : JavaObject) (new_dict : dict) (boundary_strategy : string)
    (nodata : option number)
| Call_layerMetadata (h : JavaObject)
| Call_reproject_layout (h : JavaObject) (e : Extent) (l : TileLayout)
    (target_crs resample_method : string)
| Call_reproject_scheme (h : JavaObject) (scheme : string) (tile_size : Z)
    (resolution_threshold : float) (target_crs resample_method : string)
| Call_repartition (h : JavaObject) (num_partitions : Z)
| Call_lookup (h : JavaObject) (c r : Z)
| Call_tileToLayout_layout (h : JavaObject) (l : TileLayout) (resample_method : string)
| Call_pyramid (h : JavaObject) (start_zoom end_zoom : Z) (resample_method : string)
| Call_focal (h : JavaObject) (operation neighborhood : string) (p1 p2 p3 : float)
| Call_mask (h : JavaObject) (wkts : list string)
| Call_costDistance (h : JavaObject) (ctx : SparkContext) (wkts : list string)
    (max_distance : float)
| Call_local (op : local_op) (h : JavaObject) (arg : local_arg).

(** The answers.  A handle is immutable on the JVM side (an operation
    returns a new handle), so an answer is a function of the handle and
    the arguments.  A remote failure is outside the model: every request
    is answered. *)

(** Methods of the untiled collections that deal with layouts, and the
    metadata of the tiled collection they produce. *)
Class LayoutEngine : Type := {
  srdd_collectMetadata : JavaObject -> Extent -> TileLayout -> string -> Metadata;
  srdd_collectMetadata_size : JavaObject -> string -> string -> Metadata;
  srdd_cutTiles : JavaObject -> Metadata -> string -> JavaObject;
  srdd_tileToLayout : JavaObject -> Metadata -> string -> JavaObject;
  srdd_layerMetadata : JavaObject -> Metadata
}.

(** Methods both kinds of collection have. *)
Class RasterEngine : Type := {
  srdd_convertDataType : JavaObject -> string -> JavaObject;
  srdd_reproject : JavaObject -> string -> string -> JavaObject;
  srdd_reclassify : JavaObject -> dict -> string -> option number -> JavaObject;
  srdd_reclassifyDouble : JavaObject -> dict -> string -> option number -> JavaObject
}.

(** Methods of the tiled collections. *)
Class TiledEngine : Type := {
  srdd_reproject_layout :
    JavaObject -> Extent -> TileLayout -> string -> string -> JavaObject;
  srdd_reproject_scheme :
    JavaObject -> string -> Z -> float -> string -> string -> JavaObject;
  srdd_repartition : JavaObject -> Z -> JavaObject;
  srdd_lookup : JavaObject -> Z -> Z -> list Encoded * Schema;
  srdd_tileToLayout_layout : JavaObject -> TileLayout -> string -> JavaObject;
  srdd_pyramid : JavaObject -> Z -> Z -> string -> list JavaObject;
  srdd_focal : JavaObject -> string -> string -> float -> float -> float -> JavaObject;
  srdd_mask : JavaObject -> list string -> JavaObject;
  srdd_costDistance : JavaObject -> SparkContext -> list string -> float -> JavaObject;
  srdd_local : local_op -> JavaObject -> local_arg -> JavaObject
}.

(** ** Python objects *)

Inductive wrapper_class : Type := RasterRDD_class | TiledRasterRDD_class.

(** The attributes of a wrapper: the three slots and the flag set by
    [RDDWrapper.__init__]. *)
Record Wrapper : Type := {
  class_of : wrapper_class;
  geopysc : GeoPyContext;
  rdd_type : string;
  srdd : JavaObject;
  is_cached : bool
}.

(** A reference is the position of the object in the heap. *)
Definition ref : Type := nat.

Record World : Type := {
  heap : list Wrapper;
  sent : list Request
}.

(** ** The monad of a method call *)

Definition M (A : Type) : Type := World -> (exn + A) * World.

Global Instance M_ret : MRet M := fun A (a : A) w => (inr a, w).

Global Instance M_bind : MBind M := fun A B (k : A -> M B) (m : M A) w =>
  match m w with
  | (inl e, w') => (inl e, w')
  | (inr a, w') => k a w'
  end.

Definition raise {A : Type} (e : exn) : M A := fun w => (inl e, w).

(** Lifts a local conversion that may raise. *)
Definition lift {A : Type} (x : exn + A) : M A := fun w => (x, w).

(** A py4j call: the request is logged, the answer comes back. *)
Definition call {A : Type} (r : Request) (answer : A) : M A := fun w =>
  (inr answer, {| heap := heap w; sent := sent w ++ [r] |}).

(** Object creation. *)
Definition new (o : Wrapper) : M ref := fun w =>
  (inr (length (heap w)), {| heap := heap w ++ [o]; sent := sent w |}).

(** Reading the attributes of [self].  A Python name always denotes a
    live object; the exception is the model's answer to a reference that
    was never allocated. *)
Definition attrs (self : ref) : M Wrapper := fun w =>
  match heap w !! self with
  | Some o => (inr o, w)
  | None => (inl (ReferenceError ["no such object"]), w)
  end.

(** [self.is_cached = b] *)
Definition set_is_cached (self : ref) (b : bool) : M unit := fun w =>
  match heap w !! self with
  | Some o =>
      (inr tt,
       {| heap := <[self := {| class_of := class_of o; geopysc := geopysc o;
                               rdd_type := rdd_type o; srdd := srdd o;
                               is_cached := b |}]> (heap w);
          sent := sent w |})
  | None => (inl (ReferenceError ["no such object"]), w)
  end.

(** [cls(geopysc, rdd_type, srdd)].  [RasterRDD.__init__] and
    [TiledRasterRDD.__init__] are the same code: [RDDWrapper.__init__] sets
    [is_cached] to [False], then the three slots are filled. *)
Definition __init__ (cls : wrapper_class) (g : GeoPyContext) (t : string)
    (s : JavaObject) : M ref :=
  new {| class_of := cls; geopysc := g; rdd_type := t; srdd := s;
         is_cached := false |}.

(** [[f(x) for x in xs]] *)
Fixpoint for_each {A B : Type} (f : A -> M B) (xs : list A) : M (list B) :=
  match xs with
  | [] => mret []
  | x :: xs' => y ← f x; ys ← for_each f xs'; mret (y :: ys)
  end.

(** A run that ends without an exception. *)
Definition returns {A : Type} (m : M A) (w : World) (a : A) (w' : World) : Prop :=
  m w = (inr a, w').

(** A run that ends with an exception. *)
Definition raises {A : Type} (m : M A) (w : World) (e : exn) (w' : World) : Prop :=
  m w = (inl e, w').

(** ** How a run changes the heap *)

(** A computation that leaves the Python objects alone. *)
Definition keeps_heap {A : Type} (m : M A) : Prop :=
  forall w a w', returns m w a w' -> heap w' = heap w.

(** The wrapper a method builds around a handle it got back. *)
Definition derived_from (cls : wrapper_class) (this : Wrapper) (s : JavaObject)
    : Wrapper :=
  {| class_of := cls; geopysc := geopysc this; rdd_type := rdd_type this;
     srdd := s; is_cached := false |}.

(** The heap has grown by wrappers around [hs], and [rs] are their
    references. *)
Definition extended_by (cls : wrapper_class) (this : Wrapper)
    (hs : list JavaObject) (w : World) (rs : list ref) (w' : World) : Prop :=
  rs = seq (length (heap w)) (length hs) /\
  heap w' = heap w ++ (derived_from cls this <$> hs).

End Bridge.

Arguments Request : clear implicits.
Arguments Request {R}.

(** ** Arguments that may be left out *)

(** [extent] and [layout] are mappings, and the module tests them for
    truth: [None] and the empty mapping are false, an extent or a layout
    (four keys) is true. *)
Inductive mapping_arg (A : Type) : Type :=
| IsNone
| IsEmpty
| Is (a : A).

Arguments IsNone {A}.
Arguments IsEmpty {A}.
Arguments Is {A} a.

Definition mapping_truthy {A : Type} (x : mapping_arg A) : bool :=
  match x with
  | Is _ => true
  | _ => false
  end.

(** A coordinate reference system is given as an EPSG code or as text. *)
Inductive crs_value : Type :=
| CrsInt (code : Z)
| CrsStr (name : string).

Definition crs_truthy (c : crs_value) : bool :=
  match c with
  | CrsInt code => negb (code =? 0)%Z
  | CrsStr name => negb (String.eqb name "")
  end.

(** [if not crs: crs = ""] *)
Definition crs_or_empty (c : option crs_value) : crs_value :=
  match c with
  | None => CrsStr ""
  | Some c => if negb (crs_truthy c) then CrsStr "" else c
  end.

(** [if isinstance(crs, int): crs = str(crs)] *)
Definition crs_str (c : crs_value) : string :=
  match c with
  | CrsInt code => str code
  | CrsStr name => name
  end.

(** ** [_reclassify] *)

(** A key of the value map: one break value, or a group of break values
    (a tuple) sharing one output value. *)
Inductive map_key : Type :=
| Scalar (n : number)
| Group (ks : list number).

(** The items of the value map, in the order [value_map.items()] yields
    them.  A [dict] yields no key twice: the lists that are the items of
    a [dict] are those of [is_dict] below. *)
Definition value_map_items : Type := list (map_key * number).






(** [for k in key] on a number. *)
Definition not_iterable (n : number) : exn :=
  match n with
  | PyInt _ => TypeError ["'int' object is not iterable"]
  | PyFloat _ => TypeError ["'float' object is not iterable"]
  end.

(** One turn of the loop over [value_map.items()].  A tuple is never an
    instance of [data_type]; a number that is not one is iterated, which
    raises.  [value_map[key]] is the value of the item being visited. *)
Definition visit (data_type : pytype) (new_dict : dict) (key : map_key)
    (value : number) : exn + dict :=
  match key with
  | Scalar n =>
      if negb (number_isinstance n data_type)
      then inl (not_iterable n)
      else inr (dict_set new_dict n value)
  | Group ks =>
      let val := value in
      inr (fold_left (fun d k => dict_set d k val) ks new_dict)
  end.

Fixpoint expand (data_type : pytype) (items : value_map_items) (new_dict : dict)
    : exn + dict :=
  match items with
  | [] => inr new_dict
  | (key, value) :: rest =>
      match visit data_type new_dict key value with
      | inl e => inl e
      | inr d => expand data_type rest d
      end
  end.

Section Reclassify.
Context {C : Constants} {R : Runtime} {E : RasterEngine}.

Definition _reclassify (srdd : JavaObject) (value_map : value_map_items)
    (data_type : pytype) (boundary_strategy : string)
    (replace_nodata_with : option number) : M JavaObject :=
  new_dict ← lift (expand data_type value_map []);
  match data_type with
  | TyInt =>
      if negb (truthy replace_nodata_with)
      then call (Call_reclassify srdd new_dict boundary_strategy (Some (PyInt NODATAINT)))
                (srdd_reclassify srdd new_dict boundary_strategy (Some (PyInt NODATAINT)))
      else call (Call_reclassify srdd new_dict boundary_strategy replace_nodata_with)
                (srdd_reclassify srdd new_dict boundary_strategy replace_nodata_with)
  | _ =>
      if negb (truthy replace_nodata_with)
      then call (Call_reclassifyDouble srdd new_dict boundary_strategy (Some (PyFloat nan)))
                (srdd_reclassifyDouble srdd new_dict boundary_strategy (Some (PyFloat nan)))
      else call (Call_reclassifyDouble srdd new_dict boundary_strategy replace_nodata_with)
                (srdd_reclassifyDouble srdd new_dict boundary_strategy replace_nodata_with)
  end.

End Reclassify.

(** ** [class RDDWrapper] *)

Module RDDWrapper.
Section methods.
Context {R : Runtime}.

(** The storage level is converted by PySpark
    ([_getJavaStorageLevel]); the flag is set before the handle is asked
    to persist. *)
Definition persist (self : ref) (storageLevel : StorageLevel) : M ref :=
  let javaStorageLevel := storageLevel in
  _ ← set_is_cached self true;
  this ← attrs self;
  _ ← call (Call_persist (srdd this) javaStorageLevel) tt;
  mret self.

Definition cache (self : ref) : M ref :=
  _ ← persist self MEMORY_ONLY;
  mret self.

Definition unpersist (self : ref) : M ref :=
  _ ← set_is_cached self false;
  this ← attrs self;
  _ ← call (Call_unpersist (srdd this)) tt;
  mret self.

End methods.
End RDDWrapper.

(** ** [class RasterRDD]

    The methods that hand back a collection, and [collect_metadata].  The
    default of an argument ([resample_method=NEARESTNEIGHBOR],
    [tile_size=256], ...) is what the caller passes when the argument is
    left out.  [from_numpy_rdd], [to_numpy_rdd] and [get_min_max] go
    through the serializers and are not part of this development. *)

Module RasterRDD.
Section methods.
Context {C : Constants} {R : Runtime} {L : LayoutEngine} {E : RasterEngine}.

Definition convert_data_type (self : ref) (new_type : string) : M ref :=
  if decide (new_type ∉ CELL_TYPES)
  then raise (ValueError [new_type; "Is not a know Cell Type"])
  else
    this ← attrs self;
    srdd' ← call (Call_convertDataType (srdd this) new_type)
                 (srdd_convertDataType (srdd this) new_type);
    __init__ RasterRDD_class (geopysc this) (rdd_type this) srdd'.

Definition collect_metadata (self : ref) (extent : mapping_arg Extent)
    (layout : mapping_arg TileLayout) (crs : option crs_value) (tile_size : Z)
    : M Metadata :=
  let crs := crs_or_empty crs in
  let crs := crs_str crs in
  match extent, layout with
  | Is e, Is l =>
      this ← attrs self;
      call (Call_collectMetadata (srdd this) e l crs)
           (srdd_collectMetadata (srdd this) e l crs)
  | _, _ =>
      if negb (mapping_truthy extent) && negb (mapping_truthy layout)
      then
        this ← attrs self;
        call (Call_collectMetadata_size (srdd this) (str tile_size) crs)
             (srdd_collectMetadata_size (srdd this) (str tile_size) crs)
      else raise (TypeError ["Could not collect metadata with {} and {}"])
  end.

Definition reproject (self : ref) (target_crs : crs_value)
    (resample_method : string) : M ref :=
  if decide (resample_method ∉ RESAMPLE_METHODS)
  then raise (ValueError [resample_method; " Is not a known resample method."])
  else
    let target_crs := crs_str target_crs in
    this ← attrs self;
    srdd' ← call (Call_reproject (srdd this) target_crs resample_method)
                 (srdd_reproject (srdd this) target_crs resample_method);
    __init__ RasterRDD_class (geopysc this) (rdd_type this) srdd'.

Definition cut_tiles (self : ref) (layer_metadata : Metadata)
    (resample_method : string) : M ref :=
  if decide (resample_method ∉ RESAMPLE_METHODS)
  then raise (ValueError [resample_method; " Is not a known resample method."])
  else
    this ← attrs self;
    srdd' ← call (Call_cutTiles (srdd this) layer_metadata resample_method)
                 (srdd_cutTiles (srdd this) layer_metadata resample_method);
    __init__ TiledRasterRDD_class (geopysc this) (rdd_type this) srdd'.

Definition tile_to_layout (self : ref) (layer_metadata : Metadata)
    (resample_method : string) : M ref :=
  if decide (resample_method ∉ RESAMPLE_METHODS)
  then raise (ValueError [resample_method; " Is not a known resample method."])
  else
    this ← attrs self;
    srdd' ← call (Call_tileToLayout (srdd this) layer_metadata resample_method)
                 (srdd_tileToLayout (srdd this) layer_metadata resample_method);
    __init__ TiledRasterRDD_class (geopysc this) (rdd_type this) srdd'.

(** The argument [collect_metadata(...)] is evaluated before
    [tile_to_layout] is entered. *)
Definition to_tiled_layer (self : ref) (extent : mapping_arg Extent)
    (layout : mapping_arg TileLayout) (crs : option crs_value) (tile_size : Z)
    (resample_method : string) : M ref :=
  layer_metadata ← collect_metadata self extent layout crs tile_size;
  tile_to_layout self layer_metadata resample_method.

Definition reclassify (self : ref) (value_map : value_map_items)
    (data_type : pytype) (boundary_strategy : string)
    (replace_nodata_with : option number) : M ref :=
  this ← attrs self;
  srdd' ← _reclassify (srdd this) value_map data_type boundary_strategy
                      replace_nodata_with;
  __init__ RasterRDD_class (geopysc this) (rdd_type this) srdd'.

End methods.
End RasterRDD.

(** ** [class TiledRasterRDD]

    The methods that hand back a collection, the property
    [layer_metadata] and [lookup].  The class methods ([from_numpy_rdd],
    [rasterize]) and the methods that hand back numbers or arrays
    ([to_numpy_rdd], [stitch], [get_min_max], the polygonal summaries and
    the quantile breaks) are not part of this development. *)

(** [geopyspark.geotrellis.neighborhoods.Neighborhood]: a name and three
    parameters. *)
Module neighborhoods.
Record Neighborhood : Type := {
  name : string;
  param_1 : float;
  param_2 : float;
  param_3 : float
}.
End neighborhoods.

(** The [neighborhood] argument of [focal]. *)
Inductive neighborhood_arg : Type :=
| NoNeighborhood
| NeighborhoodObject (n : neighborhoods.Neighborhood)
| NeighborhoodName (s : string).

(** The right-hand side of an arithmetic operator: a number, a wrapper, a
    list of wrappers, or anything else. *)
Inductive operand : Type :=
| OperandNumber (n : number)
| OperandObject (r : nat)
| OperandList (rs : list nat)
| OperandOther.

(** [float(p)] with [None] replaced by [0.0] beforehand. *)
Definition param_float (p : option number) : exn + float :=
  match p with
  | None => inr (S754_zero false)
  | Some n => to_float n
  end.

Module TiledRasterRDD.
Section methods.
Context {C : Constants} {R : Runtime} {L : LayoutEngine} {E : RasterEngine}
  {T : TiledEngine}.

(** The property [layer_metadata]: every read asks the handle. *)
Definition layer_metadata (self : ref) : M Metadata :=
  this ← attrs self;
  call (Call_layerMetadata (srdd this)) (srdd_layerMetadata (srdd this)).

Definition convert_data_type (self : ref) (new_type : string) : M ref :=
  this ← attrs self;
  srdd' ← call (Call_convertDataType (srdd this) new_type)
               (srdd_convertDataType (srdd this) new_type);
  __init__ TiledRasterRDD_class (geopysc this) (rdd_type this) srdd'.

Definition reproject (self : ref) (target_crs : crs_value)
    (extent : mapping_arg Extent) (layout : mapping_arg TileLayout)
    (scheme : string) (tile_size : Z) (resolution_threshold : float)
    (resample_method : string) : M ref :=
  if decide (resample_method ∉ RESAMPLE_METHODS)
  then raise (ValueError [resample_method; " Is not a known resample method."])
  else
    let target_crs := crs_str target_crs in
    this ← attrs self;
    srdd' ←
      match extent, layout with
      | Is e, Is l =>
          call (Call_reproject_layout (srdd this) e l target_crs resample_method)
               (srdd_reproject_layout (srdd this) e l target_crs resample_method)
      | _, _ =>
          if negb (mapping_truthy extent) && negb (mapping_truthy layout)
          then
            call (Call_reproject_scheme (srdd this) scheme tile_size
                    resolution_threshold target_crs resample_method)
                 (srdd_reproject_scheme (srdd this) scheme tile_size
                    resolution_threshold target_crs resample_method)
          else raise (TypeError ["Could not collect reproject RDD with {} and {}"])
      end;
    __init__ TiledRasterRDD_class (geopysc this) (rdd_type this) srdd'.

Definition repartition (self : ref) (num_partitions : Z) : M ref :=
  this ← attrs self;
  srdd' ← call (Call_repartition (srdd this) num_partitions)
               (srdd_repartition (srdd this) num_partitions);
  __init__ TiledRasterRDD_class (geopysc this) (rdd_type this) srdd'.

(** [ser.loads(tile)[0]] *)
Definition first_loaded (schema : Schema) (tile : Encoded) : M Tile :=
  match loads schema TILE tile with
  | [] => raise (IndexError ["list index out of range"])
  | t :: _ => mret t
  end.

Definition lookup (self : ref) (c r : Z) : M (list Tile) :=
  this ← attrs self;
  if decide (rdd_type this ≠ SPATIAL)
  then raise (ValueError
                ["Only TiledRasterRDDs with a rdd_type of Spatial can use lookup()"])
  else
    md ← layer_metadata self;
    let bounds := bounds md in
    let min_col := col (minKey bounds) in
    let min_row := row (minKey bounds) in
    let max_col := col (maxKey bounds) in
    let max_row := row (maxKey bounds) in
    if decide (c < min_col ∨ c > max_col)%Z
    then raise (IndexError ["column out of bounds"])
    else if decide (r < min_row ∨ r > max_row)%Z
    then raise (IndexError ["row out of bounds"])
    else
      tup ← call (Call_lookup (srdd this) c r) (srdd_lookup (srdd this) c r);
      let array_of_tiles := tup.1 in
      let schema := tup.2 in
      for_each (first_loaded schema) array_of_tiles.

Definition tile_to_layout (self : ref) (layout : TileLayout)
    (resample_method : string) : M ref :=
  if decide (resample_method ∉ RESAMPLE_METHODS)
  then raise (ValueError [resample_method; " Is not a known resample method."])
  else
    this ← attrs self;
    srdd' ← call (Call_tileToLayout_layout (srdd this) layout resample_method)
                 (srdd_tileToLayout_layout (srdd this) layout resample_method);
    __init__ TiledRasterRDD_class (geopysc this) (rdd_type this) srdd'.

Definition pyramid (self : ref) (start_zoom end_zoom : Z)
    (resample_method : string) : M (list ref) :=
  if decide (resample_method ∉ RESAMPLE_METHODS)
  then raise (ValueError [resample_method; " Is not a known resample method."])
  else
    md ← layer_metadata self;
    let size := tileRows (tileLayout (layoutDefinition md)) in
    if decide (Z.land size (size - 1) ≠ 0)%Z
    then raise (ValueError
                  ["Tiles must have a col and row count that is a power of 2"])
    else
      this ← attrs self;
      result ← call (Call_pyramid (srdd this) start_zoom end_zoom resample_method)
                    (srdd_pyramid (srdd this) start_zoom end_zoom resample_method);
      for_each (fun srdd' =>
                  __init__ TiledRasterRDD_class (geopysc this) (rdd_type this) srdd')
               result.

(** The third test reads [(not neighborhood and operation == SLOPE) or
    operation == ASPECT]. *)
Definition focal (self : ref) (operation : string)
    (neighborhood : neighborhood_arg) (param_1 param_2 param_3 : option number)
    : M ref :=
  if decide (operation ∉ OPERATIONS)
  then raise (ValueError [operation; "Is not a known operation."])
  else
    this ← attrs self;
    srdd' ←
      match neighborhood with
      | NeighborhoodObject n =>
          call (Call_focal (srdd this) operation (neighborhoods.name n)
                  (neighborhoods.param_1 n) (neighborhoods.param_2 n)
                  (neighborhoods.param_3 n))
               (srdd_focal (srdd this) operation (neighborhoods.name n)
                  (neighborhoods.param_1 n) (neighborhoods.param_2 n)
                  (neighborhoods.param_3 n))
      | NeighborhoodName s =>
          if decide (s ∉ NEIGHBORHOODS)
          then raise (ValueError [s; "is not a known neighborhood."])
          else
            p1 ← lift (param_float param_1);
            p2 ← lift (param_float param_2);
            p3 ← lift (param_float param_3);
            call (Call_focal (srdd this) operation s p1 p2 p3)
                 (srdd_focal (srdd this) operation s p1 p2 p3)
      | NoNeighborhood =>
          if decide (operation = SLOPE ∨ operation = ASPECT)
          then
            let one := binary_normalize prec emax 1 0 false in
            call (Call_focal (srdd this) operation SQUARE one
                    (S754_zero false) (S754_zero false))
                 (srdd_focal (srdd this) operation SQUARE one
                    (S754_zero false) (S754_zero false))
          else raise (ValueError
                  ["neighborhood must be set or the operation must be SLOPE or ASPECT"])
      end;
    __init__ TiledRasterRDD_class (geopysc this) (rdd_type this) srdd'.

(** [geometries] is a list, or one geometry that is wrapped into a list. *)
Definition mask (self : ref) (geometries : Geometry + list Geometry) : M ref :=
  let geometries :=
    match geometries with
    | inl g => [g]
    | inr gs => gs
    end in
  let wkts := map dumps geometries in
  this ← attrs self;
  srdd' ← call (Call_mask (srdd this) wkts) (srdd_mask (srdd this) wkts);
  __init__ TiledRasterRDD_class (geopysc this) (rdd_type this) srdd'.

Definition cost_distance (self : ref) (geometries : list Geometry)
    (max_distance : number) : M ref :=
  let wkts := map dumps geometries in
  this ← attrs self;
  d ← lift (to_float max_distance);
  srdd' ← call (Call_costDistance (srdd this) (sc (geopysc this)) wkts d)
               (srdd_costDistance (srdd this) (sc (geopysc this)) wkts d);
  __init__ TiledRasterRDD_class (geopysc this) (rdd_type this) srdd'.

Definition reclassify (self : ref) (value_map : value_map_items)
    (data_type : pytype) (boundary_strategy : string)
    (replace_nodata_with : option number) : M ref :=
  this ← attrs self;
  srdd' ← _reclassify (srdd this) value_map data_type boundary_strategy
                      replace_nodata_with;
  __init__ TiledRasterRDD_class (geopysc this) (rdd_type this) srdd'.

(** [operation] is the bound remote method [self.srdd.localAdd] and the
    like; calling it is the request. *)
Definition _process_operation (self : ref) (value : operand)
    (operation : local_op) : M ref :=
  this ← attrs self;
  srdd' ←
    match value with
    | OperandNumber n =>
        call (Call_local operation (srdd this) (ArgNumber n))
             (srdd_local operation (srdd this) (ArgNumber n))
    | OperandObject r =>
        other ← attrs r;
        match class_of other with
        | TiledRasterRDD_class =>
            if decide (rdd_type this ≠ rdd_type other)
            then raise (ValueError
                          ["Both TiledRasterRDDs need to have the same rdd_type"])
            else
              mine ← layer_metadata self;
              theirs ← layer_metadata r;
              if decide (tileLayout (layoutDefinition mine)
                         ≠ tileLayout (layoutDefinition theirs))
              then raise (ValueError
                            ["Both TiledRasterRDDs need to have the same layout"])
              else
                call (Call_local operation (srdd this) (ArgHandle (srdd other)))
                     (srdd_local operation (srdd this) (ArgHandle (srdd other)))
        | RasterRDD_class =>
            raise (TypeError ["Local operation cannot be performed with"])
        end
    | OperandList rs =>
        hs ← for_each (fun x => o ← attrs x; mret (srdd o)) rs;
        call (Call_local operation (srdd this) (ArgHandles hs))
             (srdd_local operation (srdd this) (ArgHandles hs))
    | OperandOther =>
        raise (TypeError ["Local operation cannot be performed with"])
    end;
  __init__ TiledRasterRDD_class (geopysc this) (rdd_type this) srdd'.

Definition __add__ (self : ref) (value : operand) : M ref :=
  _process_operation self value localAdd.

Definition __radd__ (self : ref) (value : operand) : M ref :=
  _process_operation self value localAdd.

Definition __sub__ (self : ref) (value : operand) : M ref :=
  _process_operation self value localSubtract.

Definition __rsub__ (self : ref) (value : operand) : M ref :=
  _process_operation self value reverseLocalSubtract.

Definition __mul__ (self : ref) (value : operand) : M ref :=
  _process_operation self value localMultiply.

Definition __rmul__ (self : ref) (value : operand) : M ref :=
  _process_operation self value localMultiply.

Definition __truediv__ (self : ref) (value : operand) : M ref :=
  _process_operation self value localDivide.

Definition __rtruediv__ (self : ref) (value : operand) : M ref :=
  _process_operation self value reverseLocalDivide.

End methods.
End TiledRasterRDD.

(** ** The collection-returning methods, as one family

    Every method of the two classes that hands back a collection, with its
    arguments.  [cache], [persist] and [unpersist] are listed apart: they
    hand back the receiver. *)
Section Operations.
Context {C : Constants} {R : Runtime} {L : LayoutEngine} {E : RasterEngine}
  {T : TiledEngine}.

Inductive derivation : Type :=
| Raster_to_tiled_layer (extent : mapping_arg Extent) (layout : mapping_arg TileLayout)
    (crs : option crs_value) (tile_size : Z) (resample_method : string)
| Raster_convert_data_type (new_type : string)
| Raster_reproject (target_crs : crs_value) (resample_method : string)
| Raster_cut_tiles (layer_metadata : Metadata) (resample_method : string)
| Raster_tile_to_layout (layer_metadata : Metadata) (resample_method : string)
| Raster_reclassify (value_map : value_map_items) (data_type : pytype)
    (boundary_strategy : string) (replace_nodata_with : option number)
| Tiled_convert_data_type (new_type : string)
| Tiled_reproject (target_crs : crs_value) (extent : mapping_arg Extent)
    (layout : mapping_arg TileLayout) (scheme : string) (tile_size : Z)
    (resolution_threshold : float) (resample_method : string)
| Tiled_repartition (num_partitions : Z)
| Tiled_tile_to_layout (layout : TileLayout) (resample_method : string)
| Tiled_pyramid (start_zoom end_zoom : Z) (resample_method : string)
| Tiled_focal (operation : string) (neighborhood : neighborhood_arg)
    (param_1 param_2 param_3 : option number)
| Tiled_mask (geometries : Geometry + list Geometry)
| Tiled_cost_distance (geometries : list Geometry) (max_distance : number)
| Tiled_reclassify (value_map : value_map_items) (data_type : pytype)
    (boundary_strategy : string) (replace_nodata_with : option number)
| Tiled_arithmetic (operation : local_op) (value : operand).

(** The collections a call hands back ([pyramid] hands back a list). *)
Definition derive (self : ref) (d : derivation) : M (list ref) :=
  let one (m : M ref) : M (list ref) := r ← m; mret [r] in
  match d with
  | Raster_to_tiled_layer e l c ts rm => one (RasterRDD.to_tiled_layer self e l c ts rm)
  | Raster_convert_data_type t => one (RasterRDD.convert_data_type self t)
  | Raster_reproject c rm => one (RasterRDD.reproject self c rm)
  | Raster_cut_tiles md rm => one (RasterRDD.cut_tiles self md rm)
  | Raster_tile_to_layout md rm => one (RasterRDD.tile_to_layout self md rm)
  | Raster_reclassify vm dt bs rn => one (RasterRDD.reclassify self vm dt bs rn)
  | Tiled_convert_data_type t => one (TiledRasterRDD.convert_data_type self t)
  | Tiled_reproject c e l s ts th rm =>
      one (TiledRasterRDD.reproject self c e l s ts th rm)
  | Tiled_repartition n => one (TiledRasterRDD.repartition self n)
  | Tiled_tile_to_layout l rm => one (TiledRasterRDD.tile_to_layout self l rm)
  | Tiled_pyramid s e rm => TiledRasterRDD.pyramid self s e rm
  | Tiled_focal op nb p1 p2 p3 => one (TiledRasterRDD.focal self op nb p1 p2 p3)
  | Tiled_mask gs => one (TiledRasterRDD.mask self gs)
  | Tiled_cost_distance gs d => one (TiledRasterRDD.cost_distance self gs d)
  | Tiled_reclassify vm dt bs rn => one (TiledRasterRDD.reclassify self vm dt bs rn)
  | Tiled_arithmetic op v => one (TiledRasterRDD._process_operation self v op)
  end.

(** The eight operator methods. *)
Definition operators : list (ref -> operand -> M ref) :=
  [TiledRasterRDD.__add__; TiledRasterRDD.__radd__;
   TiledRasterRDD.__sub__; TiledRasterRDD.__rsub__;
   TiledRasterRDD.__mul__; TiledRasterRDD.__rmul__;
   TiledRasterRDD.__truediv__; TiledRasterRDD.__rtruediv__].

End Operations.

(** ** The tiling engine

    The Scala side that answers [collectMetadata], [cutTiles],
    [tileToLayout] and [layerMetadata] is not among the Python sources.
    What follows is written from the specification of the layout and
    tiling contract; the parts it leaves to the engine (raster resampling,
    grid geometry, the scan of the input) are parameters. *)

Global Instance Key_eq_dec : EqDecision Key.
Proof. solve_decision. Defined.

Module engine.

(** Modelled from the spec: the key of an untiled record, "either
    [{extent}] (spatial) or [{extent, instant}] (spatial-temporal)", with
    the CRS recorded on the raster. *)
Record SourceKey : Type := {
  key_extent : Extent;
  key_crs : string;
  key_instant : option Z
}.

(** The smaller and the larger of two coordinates. *)
Definition lesser (a b : float) : float := if SFltb b a then b else a.
Definition greater (a b : float) : float := if SFltb a b then b else a.

Section model.
Variable Raster : Type.

(** The fragment of a raster that falls into one layout tile. *)
Variable crop : LayoutDefinition -> Z -> Z -> Raster -> Raster.

(** Combining two fragments that land on one tile, under a resample
    method. *)
Variable merge : string -> Raster -> Raster -> Raster.

(** The layout tiles (column, row) an extent intersects. *)
Variable intersected : LayoutDefinition -> Extent -> list (Z * Z).

(** The scan of the input: the extent it reports, populated key bounds,
    cell type and CRS (the last argument is the CRS override, empty for
    none). *)
Variable survey :
  list (SourceKey * Raster) -> LayoutDefinition -> string ->
  Extent * Bounds * string * string.

(** The layout inferred from a tile size hint. *)
Variable infer : list (SourceKey * Raster) -> string -> string -> LayoutDefinition.

(** Modelled from the spec: the remote collections.  An untiled collection
    is its (key, raster) records; "a tiled collection owns exactly one
    LayerMetadata for its lifetime". *)
Inductive Collection : Type :=
| Untiled (records : list (SourceKey * Raster))
| Tiled (md : Metadata) (tiles : list (Key * Raster)).

Definition records_of (c : Collection) : list (SourceKey * Raster) :=
  match c with
  | Untiled records => records
  | Tiled _ _ => []
  end.

Definition tiles_of (c : Collection) : list (Key * Raster) :=
  match c with
  | Untiled _ => []
  | Tiled _ tiles => tiles
  end.

(** Modelled from the spec: "the union bounding extent of all raster
    extents", "the minimal rectangle containing every input raster's
    extent".  An empty collection has none. *)
Definition union (a b : Extent) : Extent :=
  {| xmin := lesser (xmin a) (xmin b); ymin := lesser (ymin a) (ymin b);
     xmax := greater (xmax a) (xmax b); ymax := greater (ymax a) (ymax b) |}.

Definition union_extent (records : list (SourceKey * Raster)) : option Extent :=
  match records with
  | [] => None
  | (k, _) :: rest =>
      Some (fold_left (fun acc record => union acc (key_extent record.1)) rest
              (key_extent k))
  end.

(** Modelled from the spec: the metadata builder "combines [the scan] with
    the resolved LayoutDefinition to emit a LayerMetadata"; a
    LayoutDefinition is "an Extent paired with a TileLayout".  The
    metadata's own extent is the union extent of the rasters, as it is:
    it is not the extent of the layout, and it is not rounded to the
    tiles of the layout (the three rasters of the tiling test, tiled
    against a global layout of 128 by 128 tiles, report the extent
    [(0, 0, 10, 6)]).  For an empty collection it is what the scan
    says. *)
Definition build_metadata (records : list (SourceKey * Raster))
    (ld : LayoutDefinition) (crs : string) : Metadata :=
  let '(scanned, populated, cell_type, crs') := survey records ld crs in
  {| data_extent := default scanned (union_extent records);
     layoutDefinition := ld; bounds := populated;
     cellType := cell_type; crs := crs' |}.

(** Modelled from the spec: the layout resolver, case (a) "both an
    explicit extent and layout". *)
Definition collectMetadata (c : Collection) (e : Extent) (l : TileLayout)
    (crs : string) : Metadata :=
  build_metadata (records_of c) {| extent := e; tileLayout := l |} crs.

(** Modelled from the spec: the layout resolver, case (b) "neither (with
    only a tile_size hint and optional CRS override)". *)
Definition collectMetadata_size (c : Collection) (tile_size crs : string)
    : Metadata :=
  build_metadata (records_of c) (infer (records_of c) tile_size crs) crs.

(** Modelled from the spec: the destination keys of one source raster,
    one for "every layout tile it intersects"; a space-time key keeps its
    instant. *)
Definition landing (ld : LayoutDefinition) (k : SourceKey) : list Key :=
  map (fun '(c, rw) => {| col := c; row := rw; instant := key_instant k |})
      (intersected ld (key_extent k)).

(** Modelled from the spec: cut "partitions each source raster against
    every layout tile it intersects"; "duplicates are preserved as-is". *)
Definition cut (md : Metadata) (records : list (SourceKey * Raster))
    : list (Key * Raster) :=
  flat_map
    (fun '(k, r) =>
       map (fun '(c, rw) =>
              ({| col := c; row := rw; instant := key_instant k |},
               crop (layoutDefinition md) c rw r))
           (intersected (layoutDefinition md) (key_extent k)))
    records.

(** Modelled from the spec: one step of the merge, a fragment added to the
    tiles merged so far ("keys are compared for equality ... when merging
    tiles that land in the same target cell"). *)
Fixpoint merge_into (rm : string) (acc : list (Key * Raster)) (k : Key)
    (r : Raster) : list (Key * Raster) :=
  match acc with
  | [] => [(k, r)]
  | (k', r') :: acc' =>
      if decide (k' = k) then (k', merge rm r' r) :: acc'
      else (k', r') :: merge_into rm acc' k r
  end.

(** Modelled from the spec: the "merge step that combines all raster
    fragments mapping to one destination key into a single raster per
    key". *)
Definition merge_fragments (rm : string) (fragments : list (Key * Raster))
    : list (Key * Raster) :=
  fold_left (fun acc '(k, r) => merge_into rm acc k r) fragments [].

(** Modelled from the spec: the two request modes of the tiling
    dispatcher; the metadata "is consumed by the tiling operation that
    produces the tiled collection". *)
Definition cutTiles (c : Collection) (md : Metadata) (rm : string) : Collection :=
  Tiled md (cut md (records_of c)).

Definition tileToLayout (c : Collection) (md : Metadata) (rm : string)
    : Collection :=
  Tiled md (merge_fragments rm (cut md (records_of c))).

(** Modelled from the spec: the metadata a tiled collection owns.  An
    untiled collection has none; asking for it is not a request the
    wrappers make, and the answer then is the metadata built from the
    inferred layout. *)
Definition layerMetadata (c : Collection) : Metadata :=
  match c with
  | Tiled md _ => md
  | Untiled records => build_metadata records (infer records "" "") ""
  end.

(** The runtime whose handles are these collections; the session context
    and the codecs play no part. *)
Definition runtime : Runtime :=
  {| JavaObject := Collection;
     GeoPyContext := unit;
     SparkContext := unit;
     sc := fun _ => tt;
     Geometry := string;
     dumps := fun g => g;
     Schema := unit;
     Encoded := Raster;
     Tile := Raster;
     loads := fun _ _ t => [t] |}.

Definition layout_engine : @LayoutEngine runtime :=
  @Build_LayoutEngine runtime collectMetadata collectMetadata_size cutTiles
    tileToLayout layerMetadata.

End model.
End engine.

(** ** A session to run the methods in

    Sample values for the constants, and a stand-in engine whose handles
    are numbers: a request on handle [h] answers with handle [h + 1], and
    the layer behind handle [h] is an [h] by [h] grid of 256-pixel tiles. *)
Module sample.

Definition constants : Constants :=
  {| RESAMPLE_METHODS :=
       ["NearestNeighbor"; "Bilinear"; "CubicConvolution"; "CubicSpline";
        "Lanczos"; "Average"; "Mode"; "Median"; "Max"; "Min"];
     OPERATIONS :=
       ["Sum"; "Mean"; "Mode"; "Median"; "Max"; "Min"; "StandardDeviation";
        "Aspect"; "Slope"];
     SLOPE := "Slope";
     ASPECT := "Aspect";
     SQUARE := "square";
     NEIGHBORHOODS := ["annulus"; "nesw"; "square"; "wedge"; "circle"];
     NEARESTNEIGHBOR := "NearestNeighbor";
     FLOAT := "float";
     TILE := "Tile";
     SPATIAL := "spatial";
     LESSTHANOREQUALTO := "LessThanOrEqualTo";
     NODATAINT := -2147483648;
     CELL_TYPES :=
       ["boolraw"; "int8raw"; "uint8raw"; "int16raw"; "uint16raw"; "int32raw";
        "float32raw"; "float64raw"; "bool"; "int8"; "uint8"; "int16"; "uint16";
        "int32"; "float32"; "float64"] |}.

Definition runtime : Runtime :=
  {| JavaObject := Z;
     GeoPyContext := unit;
     SparkContext := unit;
     sc := fun _ => tt;
     Geometry := string;
     dumps := fun g => g;
     Schema := unit;
     Encoded := Z;
     Tile := Z;
     loads := fun _ _ t => [t] |}.

#[local] Existing Instance runtime.

(** [float(z)] for a small integer. *)
Definition fl (z : Z) : float := binary_normalize prec emax z 0 false.

(** [0.1] *)
Definition tenth : float := S754_finite false 7205759403792794 (-56).

Definition an_extent : Extent :=
  {| xmin := fl 0; ymin := fl 0; xmax := fl 10; ymax := fl 6 |}.

Definition a_layout : TileLayout :=
  {| layoutCols := 2; layoutRows := 2; tileCols := 5; tileRows := 5 |}.


Definition metadata_of (h : Z) : Metadata :=
  {| data_extent := an_extent;
     layoutDefinition :=
       {| extent := an_extent;
          tileLayout := {| layoutCols := h; layoutRows := h;
                           tileCols := 256; tileRows := 256 |} |};
     bounds := {| minKey := {| col := 0; row := 0; instant := None |};
                  maxKey := {| col := h - 1; row := h - 1; instant := None |} |};
     cellType := "int32";
     crs := "+proj=longlat +datum=WGS84 +no_defs " |}.

Definition layout_engine : @LayoutEngine runtime :=
  @Build_LayoutEngine runtime
    (fun h e l _ =>
       {| data_extent := e;
          layoutDefinition := {| extent := e; tileLayout := l |};
          bounds := bounds (metadata_of h);
          cellType := "int32";
          crs := "+proj=longlat +datum=WGS84 +no_defs " |})
    (fun h _ _ => metadata_of h)
    (fun h _ _ => h + 1)%Z
    (fun h _ _ => h + 1)%Z
    metadata_of.

Definition raster_engine : @RasterEngine runtime :=
  @Build_RasterEngine runtime
    (fun h _ => h + 1)%Z
    (fun h _ _ => h + 1)%Z
    (fun h _ _ _ => h + 1)%Z
    (fun h _ _ _ => h + 1)%Z.

Definition tiled_engine : @TiledEngine runtime :=
  @Build_TiledEngine runtime
    (fun h _ _ _ _ => h + 1)%Z
    (fun h _ _ _ _ _ => h + 1)%Z
    (fun h _ => h + 1)%Z
    (fun h c r => ([c + r]%Z, tt))
    (fun h _ _ => h + 1)%Z
    (fun h _ _ _ => [h + 1; h + 2]%Z)
    (fun h _ _ _ _ _ => h + 1)%Z
    (fun h _ => h + 1)%Z
    (fun h _ _ _ => h + 1)%Z
    (fun _ h _ => h + 1)%Z.

(** A heap with an untiled collection (reference 0), two spatial tiled
    layers on grids of 4 and 8 tiles (references 1 and 2), and a cached
    space-time layer (reference 3); nothing has been requested yet. *)
Definition world : World :=
  {| heap :=
       [ {| class_of := RasterRDD_class; geopysc := tt; rdd_type := "spatial";
            srdd := 10%Z; is_cached := false |};
         {| class_of := TiledRasterRDD_class; geopysc := tt; rdd_type := "spatial";
            srdd := 4%Z; is_cached := false |};
         {| class_of := TiledRasterRDD_class; geopysc := tt; rdd_type := "spatial";
            srdd := 8%Z; is_cached := false |};
         {| class_of := TiledRasterRDD_class; geopysc := tt; rdd_type := "spacetime";
            srdd := 16%Z; is_cached := true |} ];
     sent := [] |}.

(** A grid geometry for the tiling engine: tile [(c, r)] of a layout is the
    [c]-th column from the left and the [r]-th row from the top of the
    layout extent, and an extent intersects the tiles whose interior it
    meets. *)
Definition tile_extent (ld : LayoutDefinition) (c r : Z) : Extent :=
  let e := extent ld in
  let width :=
    SFdiv prec emax (SFsub prec emax (xmax e) (xmin e))
      (fl (layoutCols (tileLayout ld))) in
  let height :=
    SFdiv prec emax (SFsub prec emax (ymax e) (ymin e))
      (fl (layoutRows (tileLayout ld))) in
  {| xmin := SFadd prec emax (xmin e) (SFmul prec emax (fl c) width);
     ymin := SFsub prec emax (ymax e) (SFmul prec emax (fl (r + 1)) height);
     xmax := SFadd prec emax (xmin e) (SFmul prec emax (fl (c + 1)) width);
     ymax := SFsub prec emax (ymax e) (SFmul prec emax (fl r) height) |}.

Definition overlaps (a b : Extent) : bool :=
  SFltb (xmin a) (xmax b) && SFltb (xmin b) (xmax a) &&
  SFltb (ymin a) (ymax b) && SFltb (ymin b) (ymax a).

Definition intersected (ld : LayoutDefinition) (e : Extent) : list (Z * Z) :=
  c ← seqZ 0 (layoutCols (tileLayout ld));
  r ← seqZ 0 (layoutRows (tileLayout ld));
  if overlaps e (tile_extent ld c r) then [(c, r)] else [].

(** Rasters are reduced to one cell value; a fragment keeps the value and
    merging keeps the first. *)
Definition crop (ld : LayoutDefinition) (c r : Z) (v : Z) : Z := v.
Definition merge (rm : string) (a b : Z) : Z := a.

Definition survey (records : list (engine.SourceKey * Z)) (ld : LayoutDefinition)
    (crs : string) : Extent * Bounds * string * string :=
  (extent ld,
   {| minKey := {| col := 0; row := 0; instant := None |};
      maxKey := {| col := layoutCols (tileLayout ld) - 1;
                   row := layoutRows (tileLayout ld) - 1; instant := None |} |},
   "float32", crs).

Definition infer (records : list (engine.SourceKey * Z)) (tile_size crs : string)
    : LayoutDefinition :=
  {| extent := an_extent; tileLayout := a_layout |}.

Definition tiling_runtime : Runtime := engine.runtime Z.

Definition tiling_engine : @LayoutEngine tiling_runtime :=
  engine.layout_engine Z crop merge intersected survey infer.

(** A 4 by 4 raster of value [v] with its lower left corner at [(x, y)]. *)
Definition make_raster (x y v : Z) : engine.SourceKey * Z :=
  ({| engine.key_extent :=
        {| xmin := fl x; ymin := fl y; xmax := fl (x + 4); ymax := fl (y + 4) |};
      engine.key_crs := "4326";
      engine.key_instant := None |}, v).

Definition layers : list (engine.SourceKey * Z) :=
  [make_raster 0 0 1; make_raster 3 2 2; make_raster 6 0 3].

(** The metadata for the extent [(0, 0, 10, 6)] cut into 2 by 2 tiles. *)
Definition a_metadata : Metadata :=
  engine.collectMetadata Z survey (engine.Untiled Z layers) an_extent a_layout "".

(** A heap with the three rasters as one untiled collection (reference 0)
    and the first raster alone as another (reference 1). *)
Definition tiling_world : @World tiling_runtime :=
  @Build_World tiling_runtime
    [ @Build_Wrapper tiling_runtime RasterRDD_class tt "spatial"
        (engine.Untiled Z layers) false;
      @Build_Wrapper tiling_runtime RasterRDD_class tt "spatial"
        (engine.Untiled Z [make_raster 0 0 1]) false ]
    [].

End sample.

(** ** What [_reclassify] makes of a value map *)

(** Every scalar key is an instance of the data type (groups are not
    looked into). *)
Definition scalars_typed (data_type : pytype) (items : value_map_items) : Prop :=
  Forall (fun item =>
            match item.1 with
            | Scalar n => number_isinstance n data_type = true
            | Group _ => True
            end) items.

(** The break values an entry names. *)
Definition members (key : map_key) : list number :=
  match key with
  | Scalar n => [n]
  | Group ks => ks
  end.

Definition is_int (n : number) : bool :=
  match n with
  | PyInt _ => true
  | PyFloat _ => false
  end.

(** Every break value of the map is an [int]. *)
Definition all_int (items : value_map_items) : Prop :=
  Forall (fun item => Forall (fun n => is_int n = true) (members item.1)) items.

(** The output value of the last entry that names [k]. *)
Fixpoint last_value (k : Z) (items : value_map_items) : option number :=
  match items with
  | [] => None
  | (key, v) :: rest =>
      match last_value k rest with
      | Some v' => Some v'
      | None => if existsb (number_eqb (PyInt k)) (members key) then Some v else None
      end
  end.

(** ** The class a method hands back *)

Section ResultClass.
Context {R : Runtime}.

(** The class of the wrappers a collection-returning method builds: the
    three tiling methods of an untiled collection and every method of a
    tiled one build [TiledRasterRDD]s, the rest [RasterRDD]s. *)
Definition result_class (d : derivation) : wrapper_class :=
  match d with
  | Raster_convert_data_type _ | Raster_reproject _ _
  | Raster_reclassify _ _ _ _ => RasterRDD_class
  | _ => TiledRasterRDD_class
  end.

(** A computation that leaves the Python objects alone when it raises. *)
Definition raise_keeps_heap {A : Type} (m : M A) : Prop :=
  forall w e w', raises m w e w' -> heap w' = heap w.

End ResultClass.

(** ** Summaries, stitching and rasterizing

    The methods of [TiledRasterRDD] that hand back numbers or arrays, and
    the class method [rasterize].  Their remote methods are not among the
    requests above; they are logged apart as queries, in a monad that runs
    the earlier one inside.  None of these methods sends a request of the
    first kind, so the two logs are never interleaved. *)

(** The kinds of shapely geometry [_process_polygonal_summary] tells
    apart. *)
Inductive shape_kind : Type := Polygon | MultiPolygon | OtherShape.

(** The seven remote summaries. *)
Inductive summary : Type :=
| polygonalMin | polygonalMinDouble
| polygonalMax | polygonalMaxDouble
| polygonalSum | polygonalSumDouble
| polygonalMean.

Section Queries.
Context {R : Runtime}.

(** [isinstance(geometry, Polygon)], [isinstance(geometry, MultiPolygon)] *)
Class Shapes : Type := {
  kind_of : Geometry -> shape_kind
}.

(** A [geometry] argument: WKT text, a shapely geometry, or any other
    object. *)
Inductive geometry_arg : Type :=
| GeometryText (wkt : string)
| GeometryShape (g : Geometry)
| NotAGeometry.

Inductive Query : Type :=
| Ask_stitch (h : JavaObject)
| Ask_summary (s : summary) (h : JavaObject) (wkt : string)
| Ask_rasterize_spatial (ctx : SparkContext) (wkt : string) (e : Extent)
    (crs : string) (cols rows fill_value : Z)
| Ask_rasterize_temporal (ctx : SparkContext) (wkt : string) (e : Extent)
    (crs : string) (instant : option Z) (cols rows fill_value : Z).

(** The answers to the queries; [rasterize] is a static method of the two
    tiled classes on the JVM side. *)
Class SummaryEngine : Type := {
  srdd_stitch : JavaObject -> Encoded * Schema;
  srdd_summary : summary -> JavaObject -> string -> number;
  jvm_rasterize_spatial :
    SparkContext -> string -> Extent -> string -> Z -> Z -> Z -> JavaObject;
  jvm_rasterize_temporal :
    SparkContext -> string -> Extent -> string -> option Z -> Z -> Z -> Z ->
    JavaObject
}.

(** The state of a call: the world of the wrappers and the queries asked
    so far. *)
Record Session : Type := {
  world : World;
  asked : list Query
}.

Definition N (A : Type) : Type := Session -> (exn + A) * Session.

Global Instance N_ret : MRet N := fun A (a : A) s => (inr a, s).

Global Instance N_bind : MBind N := fun A B (k : A -> N B) (m : N A) s =>
  match m s with
  | (inl e, s') => (inl e, s')
  | (inr a, s') => k a s'
  end.

Definition throw {A : Type} (e : exn) : N A := fun s => (inl e, s).

(** Runs a computation of the earlier kind on the world of the
    session. *)
Definition within {A : Type} (m : M A) : N A := fun s =>
  match m (world s) with
  | (x, w') => (x, {| world := w'; asked := asked s |})
  end.

(** A py4j call of the second kind. *)
Definition ask {A : Type} (q : Query) (answer : A) : N A := fun s =>
  (inr answer, {| world := world s; asked := asked s ++ [q] |}).

(** [instant] as a truth value: [None] and [0] are false. *)
Definition instant_truthy (instant : option Z) : bool :=
  match instant with
  | None => false
  | Some i => negb (i =? 0)%Z
  end.

(** [repr(instant)], as it appears in the exception's arguments. *)
Definition instant_repr (instant : option Z) : string :=
  match instant with
  | None => "None"
  | Some i => str i
  end.

End Queries.

Module TiledRasterRDD_more.
Section methods.
Context {C : Constants} {R : Runtime} {S : Shapes} {Q : SummaryEngine}.

(** [TiledRasterRDD.rasterize].  [dumps] goes through for a shapely
    geometry of any kind and fails for another object, which the bare
    [except] turns into [TypeError] (its first argument, the object, is
    left out).  The temporal request carries [instant] as it was given. *)
Definition rasterize (cls : wrapper_class) (geopysc : GeoPyContext)
    (rdd_type : string) (geometry : geometry_arg) (extent : Extent)
    (crs : crs_value) (cols rows fill_value : Z) (instant : option Z) : N ref :=
  geometry ←
    match geometry with
    | GeometryText wkt => mret wkt
    | GeometryShape g => mret (dumps g)
    | NotAGeometry =>
        throw (TypeError ["Needs to be either a Shapely Geometry or a string"])
    end;
  let crs := crs_str crs in
  srdd ←
    (if instant_truthy instant && bool_decide (rdd_type ≠ SPATIAL)
     then ask (Ask_rasterize_temporal (sc geopysc) geometry extent crs instant
                 cols rows fill_value)
              (jvm_rasterize_temporal (sc geopysc) geometry extent crs instant
                 cols rows fill_value)
     else if negb (instant_truthy instant) && bool_decide (rdd_type = SPATIAL)
     then ask (Ask_rasterize_spatial (sc geopysc) geometry extent crs
                 cols rows fill_value)
              (jvm_rasterize_spatial (sc geopysc) geometry extent crs
                 cols rows fill_value)
     else throw (TypeError ["Abiguous inputs. Given "; instant_repr instant;
                           " but rdd_type is SPATIAL"]));
  within (__init__ cls geopysc rdd_type srdd).

Definition stitch (self : ref) : N Tile :=
  this ← within (attrs self);
  if decide (rdd_type this ≠ SPATIAL)
  then throw (ValueError
               ["Only TiledRasterRDDs with a rdd_type of Spatial can use stitch()"])
  else
    tup ← ask (Ask_stitch (srdd this)) (srdd_stitch (srdd this));
    match loads tup.2 TILE tup.1 with
    | [] => throw (IndexError ["list index out of range"])
    | t :: _ => mret t
    end.

(** [operation] is the bound remote method; calling it with the WKT text
    is the query. *)
Definition _process_polygonal_summary {A : Type} (geometry : geometry_arg)
    (operation : string -> N A) : N A :=
  let geometry :=
    match geometry with
    | GeometryShape g =>
        match kind_of g with
        | Polygon | MultiPolygon => GeometryText (dumps g)
        | OtherShape => geometry
        end
    | _ => geometry
    end in
  match geometry with
  | GeometryText wkt => operation wkt
  | _ => throw (ValueError
                 ["geometry must be either a Polygon, MultiPolygon, or a String"])
  end.

(** [self.srdd.polygonalMin] and the like. *)
Definition remote_summary (self : ref) (s : summary) (wkt : string) : N number :=
  this ← within (attrs self);
  ask (Ask_summary s (srdd this) wkt) (srdd_summary s (srdd this) wkt).

Definition polygonal_min (self : ref) (geometry : geometry_arg)
    (data_type : pytype) : N number :=
  match data_type with
  | TyInt => _process_polygonal_summary geometry (remote_summary self polygonalMin)
  | TyFloat =>
      _process_polygonal_summary geometry (remote_summary self polygonalMinDouble)
  | _ => throw (TypeError ["data_type must be either int or float."])
  end.

Definition polygonal_max (self : ref) (geometry : geometry_arg)
    (data_type : pytype) : N number :=
  match data_type with
  | TyInt => _process_polygonal_summary geometry (remote_summary self polygonalMax)
  | TyFloat =>
      _process_polygonal_summary geometry (remote_summary self polygonalMaxDouble)
  | _ => throw (TypeError ["data_type must be either int or float."])
  end.

Definition polygonal_sum (self : ref) (geometry : geometry_arg)
    (data_type : pytype) : N number :=
  match data_type with
  | TyInt => _process_polygonal_summary geometry (remote_summary self polygonalSum)
  | TyFloat =>
      _process_polygonal_summary geometry (remote_summary self polygonalSumDouble)
  | _ => throw (TypeError ["data_type must be either int or float."])
  end.

Definition polygonal_mean (self : ref) (geometry : geometry_arg) : N number :=
  _process_polygonal_summary geometry (remote_summary self polygonalMean).

End methods.
End TiledRasterRDD_more.

(** ** More of the session

    Stand-ins for the queries, on the handles of [sample]: a geometry is
    its own WKT text, the summaries answer with the handle itself, and a
    stitched layer decodes to one array. *)
Module sample_more.

#[local] Existing Instance sample.runtime.

Definition starts_with (p s : string) : bool := String.prefix p s.

Definition shapes : @Shapes sample.runtime :=
  @Build_Shapes sample.runtime
    (fun g => if starts_with "POLYGON" g then Polygon
              else if starts_with "MULTIPOLYGON" g then MultiPolygon
              else OtherShape).

Definition summary_engine : @SummaryEngine sample.runtime :=
  @Build_SummaryEngine sample.runtime
    (fun h => (h, tt))
    (fun _ h _ => PyInt h)
    (fun _ _ _ _ _ _ _ => 100%Z)
    (fun _ _ _ _ _ _ _ _ => 200%Z).

Definition a_square : string := "POLYGON ((0 0, 0 4, 4 4, 4 0, 0 0))".

Definition a_point : string := "POINT (1 1)".

(** The heap of [sample.world], with nothing asked yet. *)
Definition session : @Session sample.runtime :=
  {| world := sample.world; asked := [] |}.

(** The spatial tiled layer of [sample.world] at reference 1. *)
Definition layer_4 : @Wrapper sample.runtime :=
  {| class_of := TiledRasterRDD_class; geopysc := tt; rdd_type := "spatial";
     srdd := 4%Z; is_cached := false |}.

(** The space-time layer at reference 3. *)
Definition layer_16 : @Wrapper sample.runtime :=
  {| class_of := TiledRasterRDD_class; geopysc := tt; rdd_type := "spacetime";
     srdd := 16%Z; is_cached := true |}.

(** The untiled collection at reference 0. *)
Definition rasters_10 : @Wrapper sample.runtime :=
  {| class_of := RasterRDD_class; geopysc := tt; rdd_type := "spatial";
     srdd := 10%Z; is_cached := false |}.

End sample_more.

(** * Properties *)

(** ** Running a method *)

Section Running.
Context {R : Runtime}.

Lemma returns_bind {A B : Type} (m : M A) (k : A -> M B) w b w'' :
  returns (m ≫= k) w b w'' <->
  exists a w', returns m w a w' /\ returns (k a) w' b w''.
Proof.
  unfold returns, mbind, M_bind. split.
  - destruct (m w) as [[e|a] w'] eqn:Hm; [discriminate|]. eauto.
  - intros (a & w' & -> & Hk). exact Hk.
Qed.

Lemma returns_ret {A : Type} (a b : A) w w' :
  returns (mret a) w b w' <-> b = a /\ w' = w.
Proof.
  unfold returns, mret, M_ret. split.
  - intros [= -> ->]. auto.
  - intros [-> ->]. reflexivity.
Qed.

Lemma returns_raise {A : Type} (e : exn) w (a : A) w' :
  returns (raise e) w a w' <-> False.
Proof. unfold returns, raise. split; [discriminate | tauto]. Qed.

Lemma returns_call {A : Type} (r : Request) (x a : A) w w' :
  returns (call r x) w a w' <->
  a = x /\ w' = {| heap := heap w; sent := sent w ++ [r] |}.
Proof.
  unfold returns, call. split.
  - intros [= -> ->]. auto.
  - intros [-> ->]. reflexivity.
Qed.

Lemma returns_attrs (self : ref) w o w' :
  returns (attrs self) w o w' <-> heap w !! self = Some o /\ w' = w.
Proof.
  unfold returns, attrs. split.
  - destruct (heap w !! self); intros [= -> ->]; auto.
  - intros [-> ->]. reflexivity.
Qed.

Lemma returns_lift {A : Type} (x : exn + A) w a w' :
  returns (lift x) w a w' <-> x = inr a /\ w' = w.
Proof.
  unfold returns, lift. split.
  - intros [= -> ->]. auto.
  - intros [-> ->]. reflexivity.
Qed.

Lemma returns_init cls g t s w r w' :
  returns (__init__ cls g t s) w r w' <->
  r = length (heap w) /\
  w' = {| heap := heap w ++ [ {| class_of := cls; geopysc := g; rdd_type := t;
                                 srdd := s; is_cached := false |} ];
          sent := sent w |}.
Proof.
  unfold returns, __init__, new. split.
  - intros [= <- <-]. auto.
  - intros [-> ->]. reflexivity.
Qed.

End Running.

(** Unfolds one run of a method down to the heap and the request log. *)
Ltac run :=
  unfold raises, returns, mbind, M_bind, mret, M_ret, attrs, call, raise, lift,
    __init__, new; simpl.

(** ** Validation comes before dispatch *)

Section Validation.
Context {C : Constants} {R : Runtime} {L : LayoutEngine} {E : RasterEngine}
  {T : TiledEngine}.

(** C3, as amended.  [cut_tiles], [tile_to_layout] and [reproject] of an
    untiled collection, and [reproject], [tile_to_layout] and [pyramid] of
    a tiled one, called with a resample method that is not in
    [RESAMPLE_METHODS], raise [ValueError] (the spec's ArgumentError) and
    end in the world they started in: the request log and the heap are
    untouched, so nothing has crossed into the engine.  ([to_tiled_layer]
    is left out: see [to_tiled_layer_collects_first].) *)
Theorem resample_method_checked_before_dispatch (rm : string) :
  rm ∉ RESAMPLE_METHODS ->
  forall (self : ref) (w : World),
    let e := ValueError [rm; " Is not a known resample method."] in
    (forall md, raises (RasterRDD.cut_tiles self md rm) w e w) /\
    (forall md, raises (RasterRDD.tile_to_layout self md rm) w e w) /\
    (forall target, raises (RasterRDD.reproject self target rm) w e w) /\
    (forall target ext lay scheme size threshold,
        raises (TiledRasterRDD.reproject self target ext lay scheme size
                  threshold rm) w e w) /\
    (forall lay, raises (TiledRasterRDD.tile_to_layout self lay rm) w e w) /\
    (forall z1 z2, raises (TiledRasterRDD.pyramid self z1 z2 rm) w e w).
Proof.
  intros Hrm self w e.
  unfold RasterRDD.cut_tiles, RasterRDD.tile_to_layout, RasterRDD.reproject,
    TiledRasterRDD.reproject, TiledRasterRDD.tile_to_layout,
    TiledRasterRDD.pyramid, raises.
  repeat split; intros; case_decide; solve [reflexivity | contradiction].
Qed.

End Validation.

Lemma resample_method_checked_witness :
  ("Bogus" ∉ @RESAMPLE_METHODS sample.constants) /\
  raises (RasterRDD.cut_tiles (C := sample.constants) (L := sample.layout_engine)
            0 (sample.metadata_of 4) "Bogus")
         sample.world
         (ValueError ["Bogus"; " Is not a known resample method."])
         sample.world.
Proof.
  assert (H : "Bogus" ∉ @RESAMPLE_METHODS sample.constants)
    by (apply (bool_decide_unpack _); vm_compute; exact I).
  split; [exact H|].
  apply (resample_method_checked_before_dispatch
           (C := sample.constants) (L := sample.layout_engine)
           (E := sample.raster_engine) (T := sample.tiled_engine)
           "Bogus" H 0 sample.world).
Defined.

(** ** Extent and layout go together *)

Section Pairing.
Context {C : Constants} {R : Runtime} {L : LayoutEngine} {E : RasterEngine}
  {T : TiledEngine}.

(** C2, as amended.  The two arguments are tested for truth, and an empty
    mapping is false like [None].  [collect_metadata] given one of extent
    and layout that is true (an extent or a layout proper) and the other
    that is false ([None] or the empty mapping) raises [TypeError] (the
    spec's AmbiguousSpecificationError) and sends nothing.  The tiled
    [reproject] does the same once its resample method has passed the test
    that comes first. *)
Theorem partial_layout_is_rejected :
  (forall self extent layout crs size w,
      mapping_truthy extent <> mapping_truthy layout ->
      raises (RasterRDD.collect_metadata self extent layout crs size) w
        (TypeError ["Could not collect metadata with {} and {}"]) w) /\
  (forall self this target extent layout scheme size threshold rm w,
      heap w !! self = Some this ->
      rm ∈ RESAMPLE_METHODS ->
      mapping_truthy extent <> mapping_truthy layout ->
      raises (TiledRasterRDD.reproject self target extent layout scheme size
                threshold rm) w
        (TypeError ["Could not collect reproject RDD with {} and {}"]) w).
Proof.
  split.
  - intros self extent layout crs size w Hpair.
    destruct extent, layout; simpl in Hpair; try congruence; reflexivity.
  - intros self this target extent layout scheme size threshold rm w Hself Hrm
      Hpair.
    unfold TiledRasterRDD.reproject.
    case_decide; [contradiction|].
    destruct extent, layout; simpl in Hpair; try congruence;
      run; rewrite Hself; reflexivity.
Qed.

(** The empty mapping is false like [None]: given with nothing else, the
    layout is inferred from the tile size. *)
Remark empty_extent_counts_as_absent self this crs size w :
  heap w !! self = Some this ->
  returns (RasterRDD.collect_metadata self IsEmpty IsNone crs size) w
    (srdd_collectMetadata_size (srdd this) (str size) (crs_str (crs_or_empty crs)))
    {| heap := heap w;
       sent := sent w ++ [Call_collectMetadata_size (srdd this) (str size)
                            (crs_str (crs_or_empty crs))] |}.
Proof. intros Hself. unfold RasterRDD.collect_metadata. run. rewrite Hself. reflexivity. Qed.

End Pairing.

Lemma partial_layout_witness :
  sample.world.(heap) !! 1 = Some (Build_Wrapper (R := sample.runtime)
                                     TiledRasterRDD_class tt "spatial" 4%Z false) /\
  ("Bilinear" ∈ @RESAMPLE_METHODS sample.constants) /\
  raises (TiledRasterRDD.reproject (C := sample.constants) (T := sample.tiled_engine)
            1 (CrsInt 3857) (Is sample.an_extent) IsNone "float" 256 sample.tenth
            "Bilinear")
         sample.world
         (TypeError ["Could not collect reproject RDD with {} and {}"])
         sample.world.
Proof.
  assert (H : "Bilinear" ∈ @RESAMPLE_METHODS sample.constants)
    by (apply (bool_decide_unpack _); vm_compute; exact I).
  split; [reflexivity|]. split; [exact H|].
  refine (proj2 (partial_layout_is_rejected
                   (C := sample.constants) (L := sample.layout_engine)
                   (T := sample.tiled_engine))
                1 _ (CrsInt 3857) (Is sample.an_extent) IsNone "float"
                256%Z sample.tenth "Bilinear" sample.world eq_refl H _).
  discriminate.
Defined.

(** C2 as stated fails in two ways.  On the tiled [reproject], with an
    extent, no layout and an unknown resample method, the call ends with
    [ValueError], not with [TypeError].  And an extent that is given but
    empty counts as none: [collect_metadata] with the empty mapping for
    the extent and no layout does not fail, the layout is inferred from
    the tile size. *)
Lemma partial_layout_counterexample :
  let attempt :=
    TiledRasterRDD.reproject (C := sample.constants) (T := sample.tiled_engine)
      1 (CrsInt 3857) (Is sample.an_extent) IsNone "float" 256 sample.tenth
      "Bogus" in
  (raises attempt sample.world
          (ValueError ["Bogus"; " Is not a known resample method."]) sample.world /\
   ~ (exists args w', raises attempt sample.world (TypeError args) w')) /\
  returns (RasterRDD.collect_metadata (L := sample.layout_engine) 0 IsEmpty IsNone
             None 256)
          sample.world (sample.metadata_of 10)
          {| heap := heap sample.world;
             sent := [Call_collectMetadata_size (R := sample.runtime) 10%Z
                        "256" ""] |}.
Proof.
  split; [|vm_compute; reflexivity].
  assert (Hrun : raises
    (TiledRasterRDD.reproject (C := sample.constants) (T := sample.tiled_engine)
      1 (CrsInt 3857) (Is sample.an_extent) IsNone "float" 256 sample.tenth
      "Bogus") sample.world
    (ValueError ["Bogus"; " Is not a known resample method."]) sample.world)
    by (vm_compute; reflexivity).
  split; [exact Hrun|].
  intros (args & w' & Hty). unfold raises in *. rewrite Hrun in Hty. discriminate.
Qed.

(** ** Looking up a tile *)

Section Lookup.
Context {C : Constants} {R : Runtime} {L : LayoutEngine} {T : TiledEngine}.

(** C5.  On a spatial tiled layer, [lookup(col, row)] with the column or
    the row outside the key bounds recorded in the layer metadata raises
    [IndexError] (the spec's OutOfBoundsError).  The only request made is
    the read of the metadata; the tiles are never asked for, and the call
    does not return a result, empty or otherwise. *)
Theorem lookup_outside_bounds_raises (self : ref) (this : Wrapper) (c r : Z)
    (w : World) :
  heap w !! self = Some this ->
  rdd_type this = SPATIAL ->
  let b := bounds (srdd_layerMetadata (srdd this)) in
  (c < col (minKey b) \/ c > col (maxKey b) \/
   r < row (minKey b) \/ r > row (maxKey b))%Z ->
  (exists msg,
      raises (TiledRasterRDD.lookup self c r) w (IndexError msg)
        {| heap := heap w; sent := sent w ++ [Call_layerMetadata (srdd this)] |}) /\
  (forall tiles w', ~ returns (TiledRasterRDD.lookup self c r) w tiles w').
Proof.
  intros Hself Hspatial b Hout.
  assert (Hraise : exists msg,
      raises (TiledRasterRDD.lookup self c r) w (IndexError msg)
        {| heap := heap w; sent := sent w ++ [Call_layerMetadata (srdd this)] |}).
  { unfold TiledRasterRDD.lookup, TiledRasterRDD.layer_metadata. run.
    rewrite Hself. simpl. case_decide; [contradiction|].
    rewrite Hself. simpl. fold b.
    case_decide; [eexists; reflexivity|].
    case_decide; [eexists; reflexivity|].
    lia. }
  split; [exact Hraise|].
  destruct Hraise as [msg Hraise]. intros tiles w' Hret.
  unfold raises, returns in *. rewrite Hraise in Hret. discriminate.
Qed.

End Lookup.

Lemma lookup_outside_bounds_witness :
  (exists msg,
      raises (TiledRasterRDD.lookup (C := sample.constants)
                (L := sample.layout_engine) (T := sample.tiled_engine) 1 4 0)
             sample.world (IndexError msg)
             {| heap := heap sample.world;
                sent := [Call_layerMetadata (R := sample.runtime) 4%Z] |}) /\
  (forall tiles w',
      ~ returns (TiledRasterRDD.lookup (C := sample.constants)
                   (L := sample.layout_engine) (T := sample.tiled_engine) 1 4 0)
                sample.world tiles w').
Proof.
  apply (lookup_outside_bounds_raises
           (C := sample.constants) (L := sample.layout_engine)
           (T := sample.tiled_engine) 1
           (Build_Wrapper (R := sample.runtime) TiledRasterRDD_class tt "spatial"
              4%Z false)
           4%Z 0%Z sample.world).
  - reflexivity.
  - reflexivity.
  - simpl. lia.
Defined.

(** ** Arithmetic between tiled collections *)

Section Arithmetic.
Context {C : Constants} {R : Runtime} {L : LayoutEngine} {T : TiledEngine}.

Lemma operators_are_process_operation f :
  f ∈ operators ->
  exists op, f = fun self value => TiledRasterRDD._process_operation self value op.
Proof.
  unfold operators. rewrite !elem_of_cons, elem_of_nil.
  intros [->|[->|[->|[->|[->|[->|[->|[->|[]]]]]]]]]; eexists; reflexivity.
Qed.

(** C9, as amended.  For each of the eight operator methods applied to
    another tiled collection: when the two [rdd_type]s differ the call
    raises [ValueError] (the spec's TypeMismatchError) without sending
    anything; when they agree and the tile layouts differ it raises
    [ValueError] after the two reads of the layer metadata that the
    comparison needs, and the arithmetic itself is never requested. *)
Theorem mismatched_operands_are_rejected f (self r : ref) (this other : Wrapper)
    (w : World) :
  f ∈ operators ->
  heap w !! self = Some this ->
  heap w !! r = Some other ->
  class_of other = TiledRasterRDD_class ->
  (rdd_type this ≠ rdd_type other ->
   raises (f self (OperandObject r)) w
     (ValueError ["Both TiledRasterRDDs need to have the same rdd_type"]) w) /\
  (rdd_type this = rdd_type other ->
   tileLayout (layoutDefinition (srdd_layerMetadata (srdd this)))
     ≠ tileLayout (layoutDefinition (srdd_layerMetadata (srdd other))) ->
   raises (f self (OperandObject r)) w
     (ValueError ["Both TiledRasterRDDs need to have the same layout"])
     {| heap := heap w;
        sent := sent w ++ [Call_layerMetadata (srdd this);
                           Call_layerMetadata (srdd other)] |}).
Proof.
  intros Hf Hself Hother Hcls.
  destruct (operators_are_process_operation f Hf) as [op ->].
  unfold TiledRasterRDD._process_operation, TiledRasterRDD.layer_metadata.
  split.
  - intros Hne. run. rewrite Hself, Hother. simpl. rewrite Hcls.
    case_decide; [reflexivity | contradiction].
  - intros Heq Hlay. run. rewrite Hself, Hother. simpl. rewrite Hcls.
    case_decide; [contradiction|].
    rewrite Hself. simpl. rewrite Hother. simpl.
    case_decide; [|contradiction].
    rewrite <- app_assoc. reflexivity.
Qed.

End Arithmetic.

Lemma mismatched_operands_witness :
  raises (TiledRasterRDD.__sub__ (L := sample.layout_engine)
            (T := sample.tiled_engine) 1 (OperandObject 3))
         sample.world
         (ValueError ["Both TiledRasterRDDs need to have the same rdd_type"])
         sample.world.
Proof.
  refine (proj1 (mismatched_operands_are_rejected
                   (L := sample.layout_engine) (T := sample.tiled_engine)
                   TiledRasterRDD.__sub__ 1 3
                   (Build_Wrapper (R := sample.runtime) TiledRasterRDD_class tt
                      "spatial" 4%Z false)
                   (Build_Wrapper (R := sample.runtime) TiledRasterRDD_class tt
                      "spacetime" 16%Z true)
                   sample.world _ eq_refl eq_refl eq_refl) _).
  - unfold operators. rewrite !elem_of_cons. auto.
  - discriminate.
Defined.

(** C9 as stated fails when only the layouts differ: the two layers below
    are both spatial, on grids of 4 and of 8 tiles; the addition is
    refused, but two requests have gone out by then. *)
Lemma layout_mismatch_counterexample :
  exists w' : @World sample.runtime,
    raises (TiledRasterRDD.__add__ (L := sample.layout_engine)
              (T := sample.tiled_engine) 1 (OperandObject 2))
           sample.world
           (ValueError ["Both TiledRasterRDDs need to have the same layout"]) w' /\
    sent w' = [Call_layerMetadata (R := sample.runtime) 4%Z;
               Call_layerMetadata (R := sample.runtime) 8%Z] /\
    sent w' <> sent sample.world.
Proof.
  eexists. split; [vm_compute; reflexivity|].
  split; [reflexivity | discriminate].
Qed.

(** ** Converting the cell type *)

Section Conversion.
Context {C : Constants} {R : Runtime} {E : RasterEngine}.

(** The untiled collection tests the token: an unknown one raises
    [ValueError] and nothing is sent. *)
Lemma raster_convert_data_type_validates (self : ref) (new_type : string)
    (w : World) :
  new_type ∉ CELL_TYPES ->
  raises (RasterRDD.convert_data_type self new_type) w
    (ValueError [new_type; "Is not a know Cell Type"]) w.
Proof.
  intros Hnew. unfold RasterRDD.convert_data_type, raises.
  case_decide; [reflexivity | contradiction].
Qed.

(** C4, what the code does on a tiled collection.  [convert_data_type]
    has no test there: whatever the token, known or not, the conversion
    is requested from the engine and its answer is wrapped and returned.
    No [ValueError] is raised. *)
Theorem tiled_convert_data_type_forwards (self : ref) (this : Wrapper)
    (new_type : string) (w : World) :
  heap w !! self = Some this ->
  new_type ∉ CELL_TYPES ->
  returns (TiledRasterRDD.convert_data_type self new_type) w (length (heap w))
    {| heap := heap w ++
               [ {| class_of := TiledRasterRDD_class; geopysc := geopysc this;
                    rdd_type := rdd_type this;
                    srdd := srdd_convertDataType (srdd this) new_type;
                    is_cached := false |} ];
       sent := sent w ++ [Call_convertDataType (srdd this) new_type] |}.
Proof.
  intros Hself _. unfold TiledRasterRDD.convert_data_type. run.
  rewrite Hself. reflexivity.
Qed.

End Conversion.

Lemma tiled_convert_data_type_witness :
  ("float128" ∉ @CELL_TYPES sample.constants) /\
  returns (TiledRasterRDD.convert_data_type (E := sample.raster_engine) 1 "float128")
    sample.world 4
    {| heap := heap sample.world ++
               [Build_Wrapper (R := sample.runtime) TiledRasterRDD_class tt
                  "spatial" 5%Z false];
       sent := [Call_convertDataType (R := sample.runtime) 4%Z "float128"] |}.
Proof.
  assert (H : "float128" ∉ @CELL_TYPES sample.constants)
    by (apply (bool_decide_unpack _); vm_compute; exact I).
  split; [exact H|].
  exact (tiled_convert_data_type_forwards (C := sample.constants)
           (E := sample.raster_engine) 1
           (Build_Wrapper (R := sample.runtime) TiledRasterRDD_class tt "spatial"
              4%Z false)
           "float128" sample.world eq_refl H).
Defined.

(** ** Derived collections *)

(** Takes apart a run that returned, one construct at a time. *)
Ltac returned :=
  repeat (cbv beta zeta in *;
    match goal with
    | H : returns (_ ≫= _) _ _ _ |- _ =>
        apply returns_bind in H as (? & ? & ? & ?)
    | H : returns (mret _) _ _ _ |- _ => apply returns_ret in H as [-> ->]
    | H : returns (raise _) _ _ _ |- _ => apply returns_raise in H; destruct H
    | H : returns (call _ _) _ _ _ |- _ => apply returns_call in H as [-> ->]
    | H : returns (attrs _) _ _ _ |- _ => apply returns_attrs in H as [? ->]
    | H : returns (lift _) _ _ _ |- _ => apply returns_lift in H as [? ->]
    | H : returns (__init__ _ _ _ _) _ _ _ |- _ =>
        apply returns_init in H as [-> ->]
    | H : returns (match ?x with _ => _ end) _ _ _ |- _ => destruct x eqn:?
    end).

Section Derived.
Context {C : Constants} {R : Runtime} {L : LayoutEngine} {E : RasterEngine}
  {T : TiledEngine}.

Lemma for_each_keeps_heap {A B : Type} (f : A -> M B) (xs : list A) :
  (forall x, keeps_heap (f x)) -> keeps_heap (for_each f xs).
Proof.
  intros Hf. induction xs as [|x xs IH]; intros w ys w' Hrun; simpl in Hrun.
  - returned. reflexivity.
  - returned. simpl.
    match goal with
    | H1 : returns (f x) _ _ _, H2 : returns (for_each f xs) _ _ _ |- _ =>
        apply Hf in H1; apply IH in H2; congruence
    end.
Qed.

Lemma reclassify_keeps_heap s vm dt bs rn : keeps_heap (_reclassify s vm dt bs rn).
Proof.
  intros w a w' Hrun. unfold _reclassify in Hrun. returned; reflexivity.
Qed.

Lemma layer_metadata_keeps_heap self : keeps_heap (TiledRasterRDD.layer_metadata self).
Proof.
  intros w a w' Hrun. unfold TiledRasterRDD.layer_metadata in Hrun.
  returned. reflexivity.
Qed.

Lemma for_each_init_extends cls this hs w rs w' :
  returns (for_each (fun s => __init__ cls (geopysc this) (rdd_type this) s) hs)
    w rs w' ->
  extended_by cls this hs w rs w'.
Proof.
  revert w rs w'. induction hs as [|h hs IH]; intros w rs w' Hrun; simpl in Hrun.
  - returned. split; simpl; [reflexivity | symmetry; apply app_nil_r].
  - returned.
    match goal with
    | H : returns (for_each _ hs) _ _ _ |- _ => apply IH in H as [Hrs Hheap]
    end.
    simpl in *. rewrite length_app in Hrs. simpl in Hrs.
    split.
    + simpl. f_equal. rewrite Hrs. f_equal. lia.
    + rewrite Hheap, <- app_assoc. reflexivity.
Qed.

Lemma extended_by_fresh cls this hs w rs w' :
  extended_by cls this hs w rs w' ->
  (forall i o, heap w !! i = Some o -> heap w' !! i = Some o) /\
  (forall r, r ∈ rs ->
     length (heap w) <= r /\
     exists o, heap w' !! r = Some o /\ class_of o = cls /\
               rdd_type o = rdd_type this /\ is_cached o = false).
Proof.
  intros [-> Hheap]. split.
  - intros i o Hi. rewrite Hheap. apply lookup_app_l_Some. exact Hi.
  - intros r Hr. apply elem_of_seq in Hr as [Hlo Hhi]. split; [exact Hlo|].
    rewrite Hheap, lookup_app_r, list_lookup_fmap by exact Hlo.
    destruct (lookup_lt_is_Some_2 hs (r - length (heap w))) as [s Hs]; [lia|].
    rewrite Hs. simpl. eauto.
Qed.

End Derived.

Section DerivedMain.
Context {C : Constants} {R : Runtime} {L : LayoutEngine} {E : RasterEngine}
  {T : TiledEngine}.

Lemma attrs_of_srdd_keeps_heap (x : ref) :
  keeps_heap (o ← attrs x; mret (srdd o)).
Proof. intros w a w' Hrun. returned. reflexivity. Qed.

Lemma derive_extends (d : derivation) (self : ref) (this : Wrapper)
    (w : World) (rs : list ref) (w' : World) :
  heap w !! self = Some this ->
  returns (derive self d) w rs w' ->
  exists cls hs, extended_by cls this hs w rs w'.
Proof.
  intros Hself Hrun.
  destruct d; unfold derive in Hrun; cbv zeta in Hrun;
    unfold RasterRDD.to_tiled_layer, RasterRDD.collect_metadata,
      RasterRDD.convert_data_type, RasterRDD.reproject, RasterRDD.cut_tiles,
      RasterRDD.tile_to_layout, RasterRDD.reclassify,
      TiledRasterRDD.convert_data_type, TiledRasterRDD.reproject,
      TiledRasterRDD.repartition, TiledRasterRDD.tile_to_layout,
      TiledRasterRDD.pyramid, TiledRasterRDD.focal, TiledRasterRDD.mask,
      TiledRasterRDD.cost_distance, TiledRasterRDD.reclassify,
      TiledRasterRDD._process_operation, TiledRasterRDD.layer_metadata in Hrun;
    returned; simpl in *;
    repeat match goal with
      | H : returns (_reclassify _ _ _ _ _) _ _ _ |- _ =>
          apply reclassify_keeps_heap in H; simpl in H
      | H : returns (for_each (fun x => o ← attrs x; mret (srdd o)) _) _ _ _ |- _ =>
          apply (for_each_keeps_heap _ _ attrs_of_srdd_keeps_heap) in H; simpl in H
      | H : heap ?a = heap _ |- _ => is_var a; rewrite H in *; clear H
      end;
    repeat match goal with
      | H : heap w !! self = Some ?x |- _ =>
          lazymatch x with
          | this => fail
          | _ => assert (x = this) by congruence; subst x
          end
      end;
    try (eexists _, [_]; split; simpl; reflexivity).
  match goal with
  | H : returns (for_each _ _) _ _ _ |- _ =>
      apply for_each_init_extends in H; eexists _, _; exact H
  end.
Qed.

(** C10, as amended.  A call of any collection-returning method other than
    [cache], [persist] and [unpersist] that returns leaves every object
    that existed before as it was, and each collection it hands back is a
    wrapper allocated by the call, with the [rdd_type] of the receiver and
    [is_cached] false, whatever the receiver's own flag. *)
Theorem derived_collections_are_new_and_uncached (d : derivation) (self : ref)
    (this : Wrapper) (w : World) (rs : list ref) (w' : World) :
  heap w !! self = Some this ->
  returns (derive self d) w rs w' ->
  (forall i o, heap w !! i = Some o -> heap w' !! i = Some o) /\
  (forall r, r ∈ rs ->
     length (heap w) <= r /\
     exists o, heap w' !! r = Some o /\
               rdd_type o = rdd_type this /\ is_cached o = false).
Proof.
  intros Hself Hrun.
  destruct (derive_extends d self this w rs w' Hself Hrun) as (cls & hs & Hext).
  apply extended_by_fresh in Hext as [Hold Hnew].
  split; [exact Hold|].
  intros r Hr. destruct (Hnew r Hr) as (Hlo & o & Ho & _ & Hty & Hc). eauto.
Qed.

End DerivedMain.

Lemma derived_collections_witness :
  exists w' : @World sample.runtime,
    returns (derive (C := sample.constants) (L := sample.layout_engine)
               (E := sample.raster_engine) (T := sample.tiled_engine)
               3 (Tiled_pyramid 3 1 "Average"))
            sample.world [4; 5] w' /\
    (forall r, r ∈ [4; 5] ->
       length (heap sample.world) <= r /\
       exists o : @Wrapper sample.runtime,
         heap w' !! r = Some o /\
         rdd_type o = "spacetime" /\ is_cached o = false).
Proof.
  eexists. split; [vm_compute; reflexivity|].
  refine (proj2 (derived_collections_are_new_and_uncached
                   (C := sample.constants) (L := sample.layout_engine)
                   (E := sample.raster_engine) (T := sample.tiled_engine)
                   (Tiled_pyramid 3 1 "Average") 3
                   (Build_Wrapper (R := sample.runtime) TiledRasterRDD_class tt
                      "spacetime" 16%Z true)
                   sample.world [4; 5] _ eq_refl _)).
  vm_compute; reflexivity.
Defined.

(** C10 as stated fails on [cache]: it returns a collection, the receiver
    itself (reference 1, allocated before the call), and that collection's
    flag is set. *)
Lemma cache_counterexample :
  exists w' : @World sample.runtime,
    returns (RDDWrapper.cache (R := sample.runtime) 1) sample.world 1 w' /\
    1 < length (heap sample.world) /\
    @is_cached sample.runtime <$> heap w' !! 1 = Some true.
Proof.
  eexists. split; [vm_compute; reflexivity|].
  split; [simpl; lia | reflexivity].
Qed.

Section Ordering.
Context {C : Constants} {R : Runtime} {L : LayoutEngine}.

(** [to_tiled_layer] collects the metadata before [tile_to_layout] gets
    to test the resample method: with an unknown method the call fails
    after one request. *)
Remark to_tiled_layer_collects_first (self : ref) (this : Wrapper)
    (crs : option crs_value) (size : Z) (rm : string) (w : World) :
  heap w !! self = Some this ->
  rm ∉ RESAMPLE_METHODS ->
  raises (RasterRDD.to_tiled_layer self IsNone IsNone crs size rm) w
    (ValueError [rm; " Is not a known resample method."])
    {| heap := heap w;
       sent := sent w ++ [Call_collectMetadata_size (srdd this) (str size)
                            (crs_str (crs_or_empty crs))] |}.
Proof.
  intros Hself Hrm.
  unfold RasterRDD.to_tiled_layer, RasterRDD.collect_metadata,
    RasterRDD.tile_to_layout.
  run. rewrite Hself. simpl. case_decide; [reflexivity | contradiction].
Qed.

End Ordering.

(** C3 as stated fails on [to_tiled_layer], which takes a resample method
    too: with an unknown one the call ends with [ValueError], but the
    request for the metadata has gone out by then. *)
Lemma to_tiled_layer_counterexample :
  exists w' : @World sample.runtime,
    raises (RasterRDD.to_tiled_layer (C := sample.constants)
              (L := sample.layout_engine) 0 IsNone IsNone None 256 "Bogus")
           sample.world
           (ValueError ["Bogus"; " Is not a known resample method."]) w' /\
    sent w' = [Call_collectMetadata_size (R := sample.runtime) 10%Z "256" ""] /\
    sent w' <> sent sample.world.
Proof.
  eexists. split; [vm_compute; reflexivity|].
  split; [reflexivity | discriminate].
Qed.

(** ** Reclassification *)

Section ExpandFacts.

Lemma expand_app (data_type : pytype) (xs ys : value_map_items) (d : dict) :
  expand data_type (xs ++ ys) d =
  match expand data_type xs d with
  | inl e => inl e
  | inr d' => expand data_type ys d'
  end.
Proof.
  revert d. induction xs as [|[key value] xs IH]; intros d; simpl.
  - reflexivity.
  - destruct (visit data_type d key value) as [e|d']; [reflexivity | apply IH].
Qed.






End ExpandFacts.

Section Reclassification.
Context {C : Constants} {R : Runtime} {E : RasterEngine}.


(** What goes out for each data type when the replacement is true as a
    Python value, and when none is given. *)
Lemma reclassify_dispatch (srdd : JavaObject) (value_map : value_map_items)
    (data_type : pytype) (new_dict : dict) (bs : string) (w : World) :
  expand data_type value_map [] = inr new_dict ->
  let sends (r : Request) (h : JavaObject) (rn : option number) :=
    returns (_reclassify srdd value_map data_type bs rn) w h
      {| heap := heap w; sent := sent w ++ [r] |} in
  match data_type with
  | TyInt =>
      sends (Call_reclassify srdd new_dict bs (Some (PyInt NODATAINT)))
            (srdd_reclassify srdd new_dict bs (Some (PyInt NODATAINT))) None /\
      forall v, number_truthy v = true ->
        sends (Call_reclassify srdd new_dict bs (Some v))
              (srdd_reclassify srdd new_dict bs (Some v)) (Some v)
  | _ =>
      sends (Call_reclassifyDouble srdd new_dict bs (Some (PyFloat nan)))
            (srdd_reclassifyDouble srdd new_dict bs (Some (PyFloat nan))) None /\
      forall v, number_truthy v = true ->
        sends (Call_reclassifyDouble srdd new_dict bs (Some v))
              (srdd_reclassifyDouble srdd new_dict bs (Some v)) (Some v)
  end.
Proof.
  intros Hexp sends. unfold sends, _reclassify.
  destruct data_type; (split; [|intros v Hv]); run; rewrite Hexp; simpl;
    rewrite ?Hv; reflexivity.
Qed.

(** C7, what the code does with a replacement of zero.  The test is
    [if not replace_nodata_with], and zero is false: for [int] the
    request carries [NODATAINT] and for [float] it carries NaN, as if no
    replacement had been given; the zero that was supplied is not sent. *)
Theorem zero_replacement_is_not_sent (srdd : JavaObject)
    (value_map : value_map_items) (bs : string) (w : World) :
  (forall new_dict,
      expand TyInt value_map [] = inr new_dict ->
      returns (_reclassify srdd value_map TyInt bs (Some (PyInt 0))) w
        (srdd_reclassify srdd new_dict bs (Some (PyInt NODATAINT)))
        {| heap := heap w;
           sent := sent w ++
                   [Call_reclassify srdd new_dict bs (Some (PyInt NODATAINT))] |}) /\
  (forall new_dict,
      expand TyFloat value_map [] = inr new_dict ->
      returns (_reclassify srdd value_map TyFloat bs
                 (Some (PyFloat (S754_zero false)))) w
        (srdd_reclassifyDouble srdd new_dict bs (Some (PyFloat nan)))
        {| heap := heap w;
           sent := sent w ++
                   [Call_reclassifyDouble srdd new_dict bs (Some (PyFloat nan))] |}).
Proof.
  split; intros new_dict Hexp; unfold _reclassify; run; rewrite Hexp; reflexivity.
Qed.

End Reclassification.



Lemma zero_replacement_witness :
  returns (_reclassify (C := sample.constants) (E := sample.raster_engine) 4%Z
             [(Scalar (PyInt 1), PyInt 2)] TyInt "LessThanOrEqualTo"
             (Some (PyInt 0)))
          sample.world 5%Z
          {| heap := heap sample.world;
             sent := [Call_reclassify (R := sample.runtime) 4%Z
                        [(PyInt 1, PyInt 2)] "LessThanOrEqualTo"
                        (Some (PyInt (-2147483648)))] |}.
Proof.
  exact (proj1 (zero_replacement_is_not_sent (C := sample.constants)
                  (E := sample.raster_engine) 4%Z [(Scalar (PyInt 1), PyInt 2)]
                  "LessThanOrEqualTo" sample.world)
               [(PyInt 1, PyInt 2)] eq_refl).
Defined.

(** ** The tiling engine: cut against merge *)

Section MergeFacts.
Variable Raster : Type.
Variable merge : string -> Raster -> Raster -> Raster.
Variable rm : string.

Local Abbreviation merge_into := (engine.merge_into Raster merge rm).
Local Abbreviation merge_from acc fragments :=
  (fold_left (fun acc '(k, r) => merge_into acc k r) fragments acc).

Lemma merge_into_keys (acc : list (Key * Raster)) (k : Key) (r : Raster) :
  (merge_into acc k r).*1 = if decide (k ∈ acc.*1) then acc.*1 else acc.*1 ++ [k].
Proof.
  induction acc as [|[k' r'] acc IH]; csimpl.
  - reflexivity.
  - destruct (decide (k' = k)) as [->|Hne]; csimpl.
    + rewrite decide_True by apply list_elem_of_here. reflexivity.
    + rewrite IH. destruct (decide (k ∈ acc.*1)) as [Hin|Hout].
      * rewrite decide_True by (apply list_elem_of_further; exact Hin). reflexivity.
      * rewrite decide_False; [reflexivity|].
        intros [Heq|Hin]%elem_of_cons; [congruence | contradiction].
Qed.

Lemma merge_into_length (acc : list (Key * Raster)) (k : Key) (r : Raster) :
  length (merge_into acc k r) =
  if decide (k ∈ acc.*1) then length acc else S (length acc).
Proof.
  rewrite <- (length_fmap fst (merge_into acc k r)), merge_into_keys.
  case_decide; rewrite ?length_app, !length_fmap; simpl; lia.
Qed.

Lemma merge_from_NoDup (fragments acc : list (Key * Raster)) :
  NoDup acc.*1 -> NoDup (merge_from acc fragments).*1.
Proof.
  revert acc. induction fragments as [|[k r] fragments IH]; intros acc Hacc; csimpl.
  - exact Hacc.
  - apply IH. rewrite merge_into_keys. case_decide as Hin; [exact Hacc|].
    apply NoDup_app. split; [exact Hacc|]. split.
    + intros x Hx [->|[]%elem_of_nil]%elem_of_cons. contradiction.
    + apply NoDup_singleton.
Qed.

Lemma merge_from_keys (fragments acc : list (Key * Raster)) (k : Key) :
  k ∈ (merge_from acc fragments).*1 <-> k ∈ acc.*1 \/ k ∈ fragments.*1.
Proof.
  revert acc. induction fragments as [|[k' r'] fragments IH]; intros acc; csimpl.
  - rewrite elem_of_nil. tauto.
  - rewrite IH, merge_into_keys, elem_of_cons.
    case_decide as Hin.
    + split; [tauto|]. intros [?|[->|?]]; auto.
    + rewrite elem_of_app, list_elem_of_singleton. tauto.
Qed.

Lemma merge_from_length_le (fragments acc : list (Key * Raster)) :
  length (merge_from acc fragments) <= length acc + length fragments.
Proof.
  revert acc. induction fragments as [|[k r] fragments IH]; intros acc; simpl.
  - lia.
  - specialize (IH (merge_into acc k r)). rewrite merge_into_length in IH.
    case_decide; lia.
Qed.

Lemma merge_from_length_eq (fragments acc : list (Key * Raster)) :
  NoDup acc.*1 ->
  length (merge_from acc fragments) = length acc + length fragments <->
  NoDup (acc.*1 ++ fragments.*1).
Proof.
  revert acc. induction fragments as [|[k r] fragments IH]; intros acc Hacc; csimpl.
  - rewrite app_nil_r. split; [intros _; exact Hacc | lia].
  - pose proof (merge_from_length_le fragments (merge_into acc k r)) as Hle.
    rewrite merge_into_length in Hle.
    destruct (decide (k ∈ acc.*1)) as [Hin|Hout].
    + split; [lia|]. intros Hnd. apply NoDup_app in Hnd as (_ & Hdisj & _).
      exfalso. apply (Hdisj k Hin). apply list_elem_of_here.
    + assert (Hacc' : NoDup (merge_into acc k r).*1).
      { rewrite merge_into_keys, decide_False by exact Hout.
        apply NoDup_app. split; [exact Hacc|]. split; [|apply NoDup_singleton].
        intros x Hx [->|[]%elem_of_nil]%elem_of_cons. contradiction. }
      specialize (IH _ Hacc').
      rewrite merge_into_length, merge_into_keys, !decide_False in IH by exact Hout.
      rewrite <- app_assoc in IH. simpl in IH. rewrite <- IH. lia.
Qed.

(** The merge step on its own: one entry per destination key, every key
    of the input kept, and never more entries than fragments, with
    equality exactly when no key was repeated. *)
Lemma merge_fragments_spec (fragments : list (Key * Raster)) :
  let merged := engine.merge_fragments Raster merge rm fragments in
  NoDup merged.*1 /\
  (forall k, k ∈ merged.*1 <-> k ∈ fragments.*1) /\
  length merged <= length fragments /\
  (length merged < length fragments <-> ~ NoDup fragments.*1).
Proof.
  unfold engine.merge_fragments. simpl.
  pose proof (merge_from_length_le fragments []) as Hle.
  pose proof (merge_from_length_eq fragments [] (NoDup_nil_2)) as Heq.
  simpl in Hle, Heq.
  split; [apply merge_from_NoDup, NoDup_nil_2|].
  split; [intros k; rewrite merge_from_keys, elem_of_nil; tauto|].
  split; [exact Hle|].
  rewrite <- Heq. lia.
Qed.

End MergeFacts.

(** Two entries of a list that contribute one element make the
    concatenation repeat it. *)
Lemma flat_map_repeats {A B : Type} (g : A -> list B) (l : list A) (i j : nat)
    (a b : A) (k : B) :
  i < j -> l !! i = Some a -> l !! j = Some b -> k ∈ g a -> k ∈ g b ->
  ~ NoDup (flat_map g l).
Proof.
  revert i j. induction l as [|x l IH]; intros i j Hij Hi Hj Ha Hb Hnd.
  - discriminate.
  - simpl in Hnd. apply NoDup_app in Hnd as (_ & Hdisj & Hnd).
    destruct j as [|j]; [lia|]. simpl in Hj.
    destruct i as [|i]; simpl in Hi.
    + injection Hi as ->. apply (Hdisj k Ha).
      apply list_elem_of_In, in_flat_map. exists b.
      split; apply list_elem_of_In; [|exact Hb].
      exact (list_elem_of_lookup_2 l j b Hj).
    + exact (IH i j ltac:(lia) Hi Hj Ha Hb Hnd).
Qed.

Section Tiling.
Context {C : Constants}.
Variable Raster : Type.
Variable crop : LayoutDefinition -> Z -> Z -> Raster -> Raster.
Variable merge : string -> Raster -> Raster -> Raster.
Variable intersected : LayoutDefinition -> Extent -> list (Z * Z).
Variable survey :
  list (engine.SourceKey * Raster) -> LayoutDefinition -> string ->
  Extent * Bounds * string * string.
Variable infer :
  list (engine.SourceKey * Raster) -> string -> string -> LayoutDefinition.

Local Abbreviation RT := (engine.runtime Raster).
Local Abbreviation LE :=
  (engine.layout_engine Raster crop merge intersected survey infer).




(** The keys of a cut: for each source raster in turn, the keys it lands
    on. *)
Lemma cut_keys (md : Metadata) (records : list (engine.SourceKey * Raster)) :
  (engine.cut Raster crop intersected md records).*1 =
  flat_map (fun record => engine.landing intersected (layoutDefinition md) record.1)
           records.
Proof.
  unfold engine.cut, engine.landing.
  induction records as [|[k r] records IH]; simpl.
  - reflexivity.
  - rewrite fmap_app, IH. f_equal.
    induction (intersected (layoutDefinition md) (engine.key_extent k))
      as [|[c rw] tiles IHt]; csimpl; [reflexivity | rewrite IHt; reflexivity].
Qed.

(** C8, as amended.  Against the tiling engine as specified, for a known
    resample method: [tile_to_layout] and [cut_tiles] called with the same
    metadata both return.  The collection [cut_tiles] produces has one
    record for each source raster and each key it lands on, in that
    order, so a key is repeated as soon as two source rasters land on it.
    The keys of the collection [tile_to_layout] produces are pairwise
    distinct and are the keys [cut_tiles] produces; [cut_tiles] yields at
    least as many records, and strictly more exactly when it repeats a
    key, which it does when two source rasters land on one key. *)
Theorem cut_against_tile_to_layout (self : ref) (this : @Wrapper RT)
    (md : Metadata) (rm : string) (w : @World RT) :
  heap w !! self = Some this ->
  rm ∈ RESAMPLE_METHODS ->
  exists (c t : ref) (w1 w2 : @World RT) (cut merged : @Wrapper RT),
    returns (RasterRDD.cut_tiles (L := LE) self md rm) w c w1 /\
    returns (RasterRDD.tile_to_layout (L := LE) self md rm) w t w2 /\
    heap w1 !! c = Some cut /\
    heap w2 !! t = Some merged /\
    let records := engine.records_of Raster (srdd this) in
    let lands_on (record : engine.SourceKey * Raster) :=
      engine.landing intersected (layoutDefinition md) record.1 in
    let cut_records := engine.tiles_of Raster (srdd cut) in
    let merged_records := engine.tiles_of Raster (srdd merged) in
    cut_records.*1 = flat_map lands_on records /\
    NoDup merged_records.*1 /\
    (forall k, k ∈ merged_records.*1 <-> k ∈ cut_records.*1) /\
    length merged_records <= length cut_records /\
    (length merged_records < length cut_records <-> ~ NoDup cut_records.*1) /\
    (forall i j a b k,
        i <> j -> records !! i = Some a -> records !! j = Some b ->
        k ∈ lands_on a -> k ∈ lands_on b ->
        ~ NoDup cut_records.*1 /\ length merged_records < length cut_records).
Proof.
  intros Hself Hrm.
  do 6 eexists. split; [|split; [|split; [|split]]].
  - unfold RasterRDD.cut_tiles. case_decide; [contradiction|].
    run. rewrite Hself. reflexivity.
  - unfold RasterRDD.tile_to_layout. case_decide; [contradiction|].
    run. rewrite Hself. reflexivity.
  - simpl. rewrite lookup_app_r by reflexivity. rewrite Nat.sub_diag. reflexivity.
  - simpl. rewrite lookup_app_r by reflexivity. rewrite Nat.sub_diag. reflexivity.
  - simpl.
    pose proof (merge_fragments_spec Raster merge rm
                  (engine.cut Raster crop intersected md
                     (engine.records_of Raster (srdd this))))
      as (Hnodup & Hkeys & Hle & Hlt).
    split; [apply cut_keys|].
    split; [exact Hnodup|]. split; [exact Hkeys|]. split; [exact Hle|].
    split; [exact Hlt|].
    intros i j a b k Hij Ha Hb Hka Hkb.
    assert (Hrep : ~ NoDup (engine.cut Raster crop intersected md
                              (engine.records_of Raster (srdd this))).*1).
    { rewrite cut_keys.
      destruct (Nat.lt_total i j) as [Hlt'|[Heq|Hgt]]; [|contradiction|].
      - exact (flat_map_repeats _ _ i j a b k Hlt' Ha Hb Hka Hkb).
      - exact (flat_map_repeats _ _ j i b a k Hgt Hb Ha Hkb Hka). }
    split; [exact Hrep | apply Hlt; exact Hrep].
Qed.

End Tiling.



Lemma cut_against_tile_to_layout_witness :
  exists (c t : ref) (w1 w2 : @World sample.tiling_runtime)
         (cut merged : @Wrapper sample.tiling_runtime),
    returns (RasterRDD.cut_tiles (C := sample.constants)
               (L := sample.tiling_engine) 0 sample.a_metadata "NearestNeighbor")
            sample.tiling_world c w1 /\
    returns (RasterRDD.tile_to_layout (C := sample.constants)
               (L := sample.tiling_engine) 0 sample.a_metadata "NearestNeighbor")
            sample.tiling_world t w2 /\
    heap w1 !! c = Some cut /\
    heap w2 !! t = Some merged /\
    let lands_on (record : engine.SourceKey * Z) :=
      engine.landing sample.intersected (layoutDefinition sample.a_metadata)
        record.1 in
    let cut_records := engine.tiles_of Z (srdd cut) in
    let merged_records := engine.tiles_of Z (srdd merged) in
    cut_records.*1 = flat_map lands_on sample.layers /\
    NoDup merged_records.*1 /\
    (forall k, k ∈ merged_records.*1 <-> k ∈ cut_records.*1) /\
    length merged_records <= length cut_records /\
    (length merged_records < length cut_records <-> ~ NoDup cut_records.*1) /\
    ~ NoDup cut_records.*1 /\
    length merged_records < length cut_records.
Proof.
  assert (Hrm : "NearestNeighbor" ∈ @RESAMPLE_METHODS sample.constants)
    by (apply (bool_decide_unpack _); vm_compute; exact I).
  destruct (cut_against_tile_to_layout (C := sample.constants) Z sample.crop
              sample.merge sample.intersected sample.survey sample.infer 0
              (@Build_Wrapper sample.tiling_runtime RasterRDD_class tt "spatial"
                 (engine.Untiled Z sample.layers) false)
              sample.a_metadata "NearestNeighbor" sample.tiling_world eq_refl Hrm)
    as (c & t & w1 & w2 & cut & merged & Hc & Ht & Hcut & Hmerged & Hkeys &
        Hnodup & Hsame & Hle & Hlt & Hoverlap).
  exists c, t, w1, w2, cut, merged.
  split; [exact Hc|]. split; [exact Ht|]. split; [exact Hcut|].
  split; [exact Hmerged|].
  split; [exact Hkeys|]. split; [exact Hnodup|]. split; [exact Hsame|].
  split; [exact Hle|]. split; [exact Hlt|].
  apply (Hoverlap 0 1 (sample.make_raster 0 0 1) (sample.make_raster 3 2 2)
           {| col := 0; row := 0; instant := None |});
    [discriminate | reflexivity | reflexivity | |];
    apply (bool_decide_unpack _); vm_compute; exact I.
Defined.

(** The three rasters of the tiling test against the 2 by 2 layout: the
    collection [cut_tiles] returns holds eight records under four keys,
    the one [tile_to_layout] returns four records. *)
Example cut_tiles_repeats_keys :
  let key c r := {| col := c; row := r; instant := None |} in
  exists (c t : ref) (w1 w2 : @World sample.tiling_runtime)
         (cut merged : @Wrapper sample.tiling_runtime),
    returns (RasterRDD.cut_tiles (C := sample.constants)
               (L := sample.tiling_engine) 0 sample.a_metadata "NearestNeighbor")
            sample.tiling_world c w1 /\
    returns (RasterRDD.tile_to_layout (C := sample.constants)
               (L := sample.tiling_engine) 0 sample.a_metadata "NearestNeighbor")
            sample.tiling_world t w2 /\
    heap w1 !! c = Some cut /\
    heap w2 !! t = Some merged /\
    (engine.tiles_of Z (srdd cut)).*1 =
      [key 0 0; key 0 1; key 0 0; key 0 1; key 1 0; key 1 1; key 1 0; key 1 1]%Z /\
    (engine.tiles_of Z (srdd merged)).*1 =
      [key 0 0; key 0 1; key 1 0; key 1 1]%Z.
Proof.
  intros key. do 6 eexists.
  split; [vm_compute; reflexivity|].
  split; [vm_compute; reflexivity|].
  split; [reflexivity|].
  split; [reflexivity|].
  split; vm_compute; reflexivity.
Qed.

(** C8 as stated fails on one raster that overlaps two destination tiles:
    the raster with corners [(0, 0)] and [(4, 4)] meets the tiles
    [(0, 0)] and [(0, 1)] of the layout, and both [cut_tiles] and
    [tile_to_layout] yield two records. *)
Lemma one_raster_two_tiles_counterexample :
  sample.intersected (layoutDefinition sample.a_metadata)
    (engine.key_extent (sample.make_raster 0 0 1).1) = [(0, 0); (0, 1)]%Z /\
  exists (c t : ref) (w1 w2 : @World sample.tiling_runtime)
         (cut merged : @Wrapper sample.tiling_runtime),
    returns (RasterRDD.cut_tiles (C := sample.constants)
               (L := sample.tiling_engine) 1 sample.a_metadata "NearestNeighbor")
            sample.tiling_world c w1 /\
    returns (RasterRDD.tile_to_layout (C := sample.constants)
               (L := sample.tiling_engine) 1 sample.a_metadata "NearestNeighbor")
            sample.tiling_world t w2 /\
    heap w1 !! c = Some cut /\
    heap w2 !! t = Some merged /\
    length (engine.tiles_of Z (srdd cut)) = 2 /\
    length (engine.tiles_of Z (srdd merged)) = 2 /\
    ~ (length (engine.tiles_of Z (srdd merged))
       < length (engine.tiles_of Z (srdd cut))).
Proof.
  split; [vm_compute; reflexivity|].
  do 6 eexists.
  split; [vm_compute; reflexivity|].
  split; [vm_compute; reflexivity|].
  split; [reflexivity|].
  split; [reflexivity|].
  split; [vm_compute; reflexivity|].
  split; [vm_compute; reflexivity|].
  vm_compute. lia.
Qed.

(** * Further properties *)

(** ** Caching *)

Section Caching.
Context {R : Runtime}.

(** [cache()] followed by [unpersist()] on what it returned, for a
    receiver that was not cached: both return the receiver, the handle is
    asked to persist in memory and then to unpersist, and every object is
    afterwards as it was before. *)
Theorem cache_unpersist_round_trip (self : ref) (this : Wrapper) (w : World) :
  heap w !! self = Some this ->
  is_cached this = false ->
  returns (r ← RDDWrapper.cache self; RDDWrapper.unpersist r) w self
    {| heap := heap w;
       sent := sent w ++ [Call_persist (srdd this) MEMORY_ONLY;
                          Call_unpersist (srdd this)] |}.
Proof.
  intros Hself Hflag.
  assert (Hlt : self < length (heap w)) by (eapply lookup_lt_Some; exact Hself).
  unfold RDDWrapper.cache, RDDWrapper.persist, RDDWrapper.unpersist, set_is_cached.
  run.
  rewrite Hself. simpl.
  repeat (rewrite list_lookup_insert_eq by (rewrite ?length_insert; exact Hlt);
          simpl).
  rewrite list_insert_insert_eq, <- app_assoc. simpl.
  rewrite list_insert_id; [reflexivity|].
  etransitivity; [exact Hself|].
  destruct this; simpl in *; subst; reflexivity.
Qed.

(** [persist] on a collection that is not cached, so that no storage
    level has been set through the wrapper, returns the receiver and
    changes nothing but its flag: the heap keeps its size, the receiver
    keeps its class, context, type and handle with [is_cached] now true,
    every other object is as before, and one request has gone out, with
    the storage level that was given. *)
Theorem persist_touches_only_the_flag (self : ref) (this : Wrapper)
    (level : StorageLevel) (w : World) :
  heap w !! self = Some this ->
  is_cached this = false ->
  exists w',
    returns (RDDWrapper.persist self level) w self w' /\
    sent w' = sent w ++ [Call_persist (srdd this) level] /\
    length (heap w') = length (heap w) /\
    heap w' !! self =
      Some {| class_of := class_of this; geopysc := geopysc this;
              rdd_type := rdd_type this; srdd := srdd this; is_cached := true |} /\
    (forall other, other <> self -> heap w' !! other = heap w !! other).
Proof.
  intros Hself _.
  assert (Hlt : self < length (heap w)) by (eapply lookup_lt_Some; exact Hself).
  eexists. split.
  - unfold RDDWrapper.persist, set_is_cached. run. rewrite Hself. simpl.
    rewrite list_lookup_insert_eq by exact Hlt. simpl. reflexivity.
  - simpl. split; [reflexivity|]. split; [apply length_insert|].
    split; [apply list_lookup_insert_eq; exact Hlt|].
    intros other Hne. apply list_lookup_insert_ne. congruence.
Qed.

End Caching.

(** ** Pyramids *)

Section PowerOfTwo.
Local Open Scope Z_scope.

(** The bit test of [pyramid]: on a positive size it holds exactly for
    the powers of two. *)
Lemma land_pred_power_of_two (n : Z) :
  0 < n ->
  Z.land n (n - 1) = 0 <-> exists k, 0 <= k /\ n = 2 ^ k.
Proof.
  intros Hpos. split.
  - intros Hland.
    exists (Z.log2 n). split; [apply Z.log2_nonneg|].
    destruct (Z.log2_spec n Hpos) as [Hlo Hhi].
    destruct (Z.eq_dec n (2 ^ Z.log2 n)) as [Heq|Hne]; [exact Heq|].
    exfalso.
    assert (Hk : 0 <= Z.log2 n) by apply Z.log2_nonneg.
    assert (Hlog : Z.log2 (n - 1) = Z.log2 n).
    { apply Z.log2_unique; [exact Hk|]. lia. }
    assert (Hbit : Z.testbit (Z.land n (n - 1)) (Z.log2 n) = true).
    { assert (0 < 2 ^ Z.log2 n) by (apply Z.pow_pos_nonneg; lia).
      rewrite Z.land_spec, Z.bit_log2 by exact Hpos.
      rewrite <- Hlog, Z.bit_log2 by lia. reflexivity. }
    rewrite Hland, Z.bits_0 in Hbit. discriminate.
  - intros (k & Hk & ->).
    replace (2 ^ k - 1) with (Z.ones k) by (rewrite Z.ones_equiv; lia).
    rewrite Z.land_ones by exact Hk. apply Z.mod_same.
    assert (0 < 2 ^ k) by (apply Z.pow_pos_nonneg; lia). lia.
Qed.

End PowerOfTwo.

Section Pyramid.
Context {C : Constants} {R : Runtime} {L : LayoutEngine} {T : TiledEngine}.

(** Wrapping a list of handles always goes through. *)
Lemma for_each_init_runs cls (this : Wrapper) (hs : list JavaObject) (w : World) :
  for_each (fun s => __init__ cls (geopysc this) (rdd_type this) s) hs w =
  (inr (seq (length (heap w)) (length hs)),
   {| heap := heap w ++ (derived_from cls this <$> hs); sent := sent w |}).
Proof.
  revert w. induction hs as [|h hs IH]; intros w; simpl.
  - unfold mret, M_ret. rewrite app_nil_r. destruct w; reflexivity.
  - unfold mbind, M_bind, __init__, new at 1. simpl. rewrite IH. simpl.
    unfold mret, M_ret. rewrite length_app, <- app_assoc. simpl.
    replace (length (heap w) + 1) with (S (length (heap w))) by lia.
    reflexivity.
Qed.

(** [pyramid] with a known resample method, on a layer whose tiles have a
    positive number of rows: when that number is a power of two, the
    metadata is read, the pyramid is requested and one new wrapper per
    handle that comes back is returned; otherwise the call raises
    [ValueError] after the metadata read and the pyramid is never
    requested.  The number of tile columns plays no part. *)
Theorem pyramid_wants_power_of_two_rows (self : ref) (this : Wrapper)
    (start_zoom end_zoom : Z) (rm : string) (w : World) :
  heap w !! self = Some this ->
  rm ∈ RESAMPLE_METHODS ->
  let size := tileRows (tileLayout (layoutDefinition (srdd_layerMetadata (srdd this)))) in
  let handles := srdd_pyramid (srdd this) start_zoom end_zoom rm in
  (0 < size)%Z ->
  ((exists k, (0 <= k)%Z /\ size = (2 ^ k)%Z) ->
   returns (TiledRasterRDD.pyramid self start_zoom end_zoom rm) w
     (seq (length (heap w)) (length handles))
     {| heap := heap w ++ (derived_from TiledRasterRDD_class this <$> handles);
        sent := sent w ++ [Call_layerMetadata (srdd this);
                           Call_pyramid (srdd this) start_zoom end_zoom rm] |}) /\
  (~ (exists k, (0 <= k)%Z /\ size = (2 ^ k)%Z) ->
   raises (TiledRasterRDD.pyramid self start_zoom end_zoom rm) w
     (ValueError ["Tiles must have a col and row count that is a power of 2"])
     {| heap := heap w; sent := sent w ++ [Call_layerMetadata (srdd this)] |}).
Proof.
  intros Hself Hrm size handles Hpos.
  pose proof (land_pred_power_of_two size Hpos) as Hbits.
  unfold TiledRasterRDD.pyramid, TiledRasterRDD.layer_metadata.
  case_decide; [contradiction|].
  split.
  - intros Hpow. apply Hbits in Hpow.
    unfold returns, mbind, M_bind, attrs, call. simpl.
    rewrite Hself. simpl. fold size. case_decide; [contradiction|].
    simpl. rewrite Hself. simpl. rewrite for_each_init_runs. simpl.
    rewrite <- app_assoc. reflexivity.
  - intros Hnot. run. rewrite Hself. simpl. fold size.
    case_decide; [reflexivity|]. exfalso. apply Hnot, Hbits.
    destruct (decide (Z.land size (size - 1) = 0%Z)); [assumption|contradiction].
Qed.

End Pyramid.

(** ** Focal operations *)

Section Focal.
Context {C : Constants} {R : Runtime} {T : TiledEngine}.

(** The three ways [focal] refuses its arguments; in each the call ends
    with [ValueError] in the world it started in. *)
Theorem focal_refusals (self : ref) (this : Wrapper) (operation : string)
    (p1 p2 p3 : option number) (w : World) :
  heap w !! self = Some this ->
  (operation ∉ OPERATIONS ->
   forall nb,
     raises (TiledRasterRDD.focal self operation nb p1 p2 p3) w
       (ValueError [operation; "Is not a known operation."]) w) /\
  (operation ∈ OPERATIONS ->
   forall s, s ∉ NEIGHBORHOODS ->
     raises (TiledRasterRDD.focal self operation (NeighborhoodName s) p1 p2 p3) w
       (ValueError [s; "is not a known neighborhood."]) w) /\
  (operation ∈ OPERATIONS ->
   operation <> SLOPE -> operation <> ASPECT ->
   raises (TiledRasterRDD.focal self operation NoNeighborhood p1 p2 p3) w
     (ValueError
        ["neighborhood must be set or the operation must be SLOPE or ASPECT"]) w).
Proof.
  intros Hself. unfold TiledRasterRDD.focal.
  split; [|split].
  - intros Hop nb. unfold raises. case_decide; [reflexivity | contradiction].
  - intros Hop s Hs. case_decide; [contradiction|].
    run. rewrite Hself. simpl. case_decide; [reflexivity | contradiction].
  - intros Hop Hs Ha. case_decide; [contradiction|].
    run. rewrite Hself. simpl. case_decide; [|reflexivity]. tauto.
Qed.

(** Two shorthands of [focal], each against the call with the
    [Neighborhood] object it stands for: a neighborhood given by name with
    its parameters left out has them at [0.0], and no neighborhood at all,
    for [SLOPE] or [ASPECT], is the square of extent [1.0].  The two calls
    of each pair end the same way from any world. *)
Theorem focal_shorthands (self : ref) (operation : string) (w : World) :
  (forall s, s ∈ NEIGHBORHOODS ->
     TiledRasterRDD.focal self operation (NeighborhoodName s) None None None w =
     TiledRasterRDD.focal self operation
       (NeighborhoodObject
          {| neighborhoods.name := s;
             neighborhoods.param_1 := S754_zero false;
             neighborhoods.param_2 := S754_zero false;
             neighborhoods.param_3 := S754_zero false |})
       None None None w) /\
  (operation = SLOPE \/ operation = ASPECT ->
     TiledRasterRDD.focal self operation NoNeighborhood None None None w =
     TiledRasterRDD.focal self operation
       (NeighborhoodObject
          {| neighborhoods.name := SQUARE;
             neighborhoods.param_1 := binary_normalize prec emax 1 0 false;
             neighborhoods.param_2 := S754_zero false;
             neighborhoods.param_3 := S754_zero false |})
       None None None w).
Proof.
  unfold TiledRasterRDD.focal. split.
  - intros s Hs. case_decide; [reflexivity|].
    run. destruct (heap w !! self); [|reflexivity]. simpl.
    case_decide; [contradiction | reflexivity].
  - intros Hop. case_decide; [reflexivity|].
    run. destruct (heap w !! self); [|reflexivity]. simpl.
    case_decide; [reflexivity | contradiction].
Qed.

End Focal.

Section FocalObject.
Context {C : Constants} {R : Runtime} {T : TiledEngine}.

(** A [Neighborhood] object is taken as it is: its name is not looked up
    in [NEIGHBORHOODS] and its parameters are not converted; for a known
    operation the request always goes out and a new tiled wrapper comes
    back. *)
Theorem focal_neighborhood_object_is_forwarded (self : ref) (this : Wrapper)
    (operation : string) (n : neighborhoods.Neighborhood)
    (p1 p2 p3 : option number) (w : World) :
  heap w !! self = Some this ->
  operation ∈ OPERATIONS ->
  let answer :=
    srdd_focal (srdd this) operation (neighborhoods.name n)
      (neighborhoods.param_1 n) (neighborhoods.param_2 n)
      (neighborhoods.param_3 n) in
  returns (TiledRasterRDD.focal self operation (NeighborhoodObject n) p1 p2 p3) w
    (length (heap w))
    {| heap := heap w ++ [derived_from TiledRasterRDD_class this answer];
       sent := sent w ++
               [Call_focal (srdd this) operation (neighborhoods.name n)
                  (neighborhoods.param_1 n) (neighborhoods.param_2 n)
                  (neighborhoods.param_3 n)] |}.
Proof.
  intros Hself Hop answer. unfold TiledRasterRDD.focal.
  case_decide; [contradiction|]. run. rewrite Hself. reflexivity.
Qed.

End FocalObject.

(** ** Looking up a tile, continued *)

Section LookupMore.
Context {C : Constants} {R : Runtime} {L : LayoutEngine} {T : TiledEngine}.

(** On a layer that is not spatial [lookup] raises [ValueError] at once,
    whatever the coordinates: not even the metadata is read. *)
Theorem lookup_needs_a_spatial_layer (self : ref) (this : Wrapper) (c r : Z)
    (w : World) :
  heap w !! self = Some this ->
  rdd_type this <> SPATIAL ->
  raises (TiledRasterRDD.lookup self c r) w
    (ValueError ["Only TiledRasterRDDs with a rdd_type of Spatial can use lookup()"])
    w.
Proof.
  intros Hself Hty. unfold TiledRasterRDD.lookup. run. rewrite Hself. simpl.
  case_decide; [reflexivity | contradiction].
Qed.

Lemma for_each_first_loaded (schema : Schema) (encoded : list Encoded)
    (tiles : list Tile) (w : World) :
  Forall2 (fun enc t => exists rest, loads schema TILE enc = t :: rest)
    encoded tiles ->
  for_each (TiledRasterRDD.first_loaded schema) encoded w = (inr tiles, w).
Proof.
  intros Hall. revert w. induction Hall as [|enc t encoded tiles [rest Hl] _ IH];
    intros w; simpl.
  - reflexivity.
  - unfold mbind, M_bind, TiledRasterRDD.first_loaded. rewrite Hl. simpl.
    unfold mret at 1, M_ret at 1. simpl. rewrite IH. reflexivity.
Qed.

Lemma for_each_first_loaded_empty (schema : Schema) (before after : list Encoded)
    (enc : Encoded) (w : World) :
  Forall (fun e => loads schema TILE e <> []) before ->
  loads schema TILE enc = [] ->
  for_each (TiledRasterRDD.first_loaded schema) (before ++ enc :: after) w =
  (inl (IndexError ["list index out of range"]), w).
Proof.
  intros Hbefore Henc. revert w.
  induction Hbefore as [|e before He _ IH]; intros w; simpl.
  - unfold mbind, M_bind, TiledRasterRDD.first_loaded. rewrite Henc. reflexivity.
  - unfold mbind, M_bind, TiledRasterRDD.first_loaded at 1.
    destruct (loads schema TILE e) as [|t rest]; [contradiction|].
    unfold mret at 1, M_ret at 1. simpl. rewrite IH. reflexivity.
Qed.

(** Inside the bounds of a spatial layer [lookup] reads the metadata and
    asks for the tiles.  When every encoded tile decodes to at least one
    array, the call returns the first array of each, in order; when one
    of them decodes to nothing, the call raises [IndexError] although the
    coordinates were in bounds. *)
Theorem lookup_inside_bounds (self : ref) (this : Wrapper) (c r : Z) (w : World) :
  heap w !! self = Some this ->
  rdd_type this = SPATIAL ->
  let b := bounds (srdd_layerMetadata (srdd this)) in
  (col (minKey b) <= c <= col (maxKey b))%Z ->
  (row (minKey b) <= r <= row (maxKey b))%Z ->
  let encoded := (srdd_lookup (srdd this) c r).1 in
  let schema := (srdd_lookup (srdd this) c r).2 in
  let w' := {| heap := heap w;
               sent := sent w ++ [Call_layerMetadata (srdd this);
                                  Call_lookup (srdd this) c r] |} in
  (forall tiles,
      Forall2 (fun enc t => exists rest, loads schema TILE enc = t :: rest)
        encoded tiles ->
      returns (TiledRasterRDD.lookup self c r) w tiles w') /\
  (forall before enc after,
      encoded = before ++ enc :: after ->
      Forall (fun e => loads schema TILE e <> []) before ->
      loads schema TILE enc = [] ->
      raises (TiledRasterRDD.lookup self c r) w
        (IndexError ["list index out of range"]) w').
Proof.
  intros Hself Hspatial b Hc Hr encoded schema w'.
  assert (Hhead :
    TiledRasterRDD.lookup self c r w =
    for_each (TiledRasterRDD.first_loaded schema) encoded w').
  { unfold TiledRasterRDD.lookup, TiledRasterRDD.layer_metadata.
    unfold mbind, M_bind, attrs, call, raise. simpl. rewrite Hself. simpl.
    case_decide; [contradiction|]. rewrite Hself. simpl. fold b.
    case_decide; [lia|]. case_decide; [lia|].
    unfold w', encoded, schema. simpl. rewrite <- app_assoc. reflexivity. }
  split.
  - intros tiles Hall. unfold returns. rewrite Hhead.
    apply for_each_first_loaded. exact Hall.
  - intros before enc after Henc Hbefore Hempty. unfold raises.
    rewrite Hhead, Henc. apply for_each_first_loaded_empty; assumption.
Qed.

End LookupMore.

(** ** Arithmetic, continued *)

Section ArithmeticMore.
Context {C : Constants} {R : Runtime} {L : LayoutEngine} {T : TiledEngine}.

(** Arithmetic with a number reads no metadata and tests nothing: for any
    layer, one request goes out with the number as it was given, and its
    answer comes back in a new tiled wrapper. *)
Theorem arithmetic_with_a_number (self : ref) (this : Wrapper) (n : number)
    (operation : local_op) (w : World) :
  heap w !! self = Some this ->
  let answer := srdd_local operation (srdd this) (ArgNumber n) in
  returns (TiledRasterRDD._process_operation self (OperandNumber n) operation) w
    (length (heap w))
    {| heap := heap w ++ [derived_from TiledRasterRDD_class this answer];
       sent := sent w ++ [Call_local operation (srdd this) (ArgNumber n)] |}.
Proof.
  intros Hself answer. unfold TiledRasterRDD._process_operation. run.
  rewrite Hself. reflexivity.
Qed.

(** Arithmetic between two tiled collections of the same [rdd_type] whose
    metadata show the same tile layout: the two metadata reads go out,
    then the operation with the other collection's handle, and the answer
    comes back in a new tiled wrapper. *)
Theorem arithmetic_with_a_matching_layer (self r : ref) (this other : Wrapper)
    (operation : local_op) (w : World) :
  heap w !! self = Some this ->
  heap w !! r = Some other ->
  class_of other = TiledRasterRDD_class ->
  rdd_type this = rdd_type other ->
  tileLayout (layoutDefinition (srdd_layerMetadata (srdd this)))
    = tileLayout (layoutDefinition (srdd_layerMetadata (srdd other))) ->
  let answer := srdd_local operation (srdd this) (ArgHandle (srdd other)) in
  returns (TiledRasterRDD._process_operation self (OperandObject r) operation) w
    (length (heap w))
    {| heap := heap w ++ [derived_from TiledRasterRDD_class this answer];
       sent := sent w ++ [Call_layerMetadata (srdd this);
                          Call_layerMetadata (srdd other);
                          Call_local operation (srdd this) (ArgHandle (srdd other))] |}.
Proof.
  intros Hself Hother Hcls Hty Hlay answer.
  unfold TiledRasterRDD._process_operation, TiledRasterRDD.layer_metadata. run.
  rewrite Hself, Hother. simpl. rewrite Hcls.
  case_decide; [contradiction|]. rewrite Hself. simpl. rewrite Hother. simpl.
  case_decide; [contradiction|]. simpl.
  rewrite <- !app_assoc. reflexivity.
Qed.

(** An operand that is neither a number, a tiled collection nor a list
    (an untiled collection among them) ends the call with [TypeError];
    nothing is sent. *)
Theorem arithmetic_with_anything_else (self r : ref) (this other : Wrapper)
    (operation : local_op) (w : World) :
  heap w !! self = Some this ->
  heap w !! r = Some other ->
  class_of other = RasterRDD_class ->
  let err := TypeError ["Local operation cannot be performed with"] in
  raises (TiledRasterRDD._process_operation self (OperandObject r) operation) w
    err w /\
  raises (TiledRasterRDD._process_operation self OperandOther operation) w err w.
Proof.
  intros Hself Hother Hcls err.
  unfold TiledRasterRDD._process_operation. split; run.
  - rewrite Hself, Hother. simpl. rewrite Hcls. reflexivity.
  - rewrite Hself. reflexivity.
Qed.

Lemma run_bind {A B : Type} (m : M A) (k : A -> M B) (w : World) :
  (m ≫= k) w =
  match m w with
  | (inl e, w') => (inl e, w')
  | (inr a, w') => k a w'
  end.
Proof. reflexivity. Qed.

Lemma for_each_srdd (rs : list ref) (os : list Wrapper) (w : World) :
  Forall2 (fun x o => heap w !! x = Some o) rs os ->
  for_each (fun x => o ← attrs x; mret (srdd o)) rs w = (inr (srdd <$> os), w).
Proof.
  intros Hall. induction Hall as [|x o rs os Hx _ IH]; simpl.
  - reflexivity.
  - rewrite !run_bind. unfold attrs at 1. rewrite Hx. simpl.
    rewrite run_bind, IH. reflexivity.
Qed.

(** Arithmetic with a list of collections tests none of them: whatever
    their class, [rdd_type] and layout, their handles go out in one
    request, in the order of the list, and no metadata is read. *)
Theorem arithmetic_with_a_list (self : ref) (this : Wrapper) (rs : list ref)
    (others : list Wrapper) (operation : local_op) (w : World) :
  heap w !! self = Some this ->
  Forall2 (fun x o => heap w !! x = Some o) rs others ->
  let handles := ArgHandles (srdd <$> others) in
  let answer := srdd_local operation (srdd this) handles in
  returns (TiledRasterRDD._process_operation self (OperandList rs) operation) w
    (length (heap w))
    {| heap := heap w ++ [derived_from TiledRasterRDD_class this answer];
       sent := sent w ++ [Call_local operation (srdd this) handles] |}.
Proof.
  intros Hself Hall handles answer.
  unfold TiledRasterRDD._process_operation.
  unfold returns. rewrite !run_bind. unfold attrs at 1. rewrite Hself. simpl.
  rewrite !run_bind, (for_each_srdd rs others w Hall). reflexivity.
Qed.

End ArithmeticMore.

(** ** Coordinate reference systems *)

Section Crs.
Context {C : Constants} {R : Runtime} {L : LayoutEngine} {E : RasterEngine}
  {T : TiledEngine}.


End Crs.

(** ** The order of the tests *)

Section Precedence.
Context {C : Constants} {R : Runtime} {L : LayoutEngine}.

(** Every way [to_tiled_layer] can end.  An extent without a layout or a
    layout without an extent ends it with [TypeError] and nothing sent,
    whatever the resample method.  Otherwise the metadata is collected
    first; then an unknown resample method ends the call with
    [ValueError], and a known one sends the tiling request and returns a
    new tiled wrapper around its answer. *)
Theorem to_tiled_layer_outcomes (self : ref) (this : Wrapper)
    (extent : mapping_arg Extent) (layout : mapping_arg TileLayout)
    (crs : option crs_value) (size : Z) (rm : string) (w : World) :
  heap w !! self = Some this ->
  (mapping_truthy extent <> mapping_truthy layout ->
   raises (RasterRDD.to_tiled_layer self extent layout crs size rm) w
     (TypeError ["Could not collect metadata with {} and {}"]) w) /\
  (mapping_truthy extent = mapping_truthy layout ->
   exists md req,
     returns (RasterRDD.collect_metadata self extent layout crs size) w md
       {| heap := heap w; sent := sent w ++ [req] |} /\
     (rm ∉ RESAMPLE_METHODS ->
      raises (RasterRDD.to_tiled_layer self extent layout crs size rm) w
        (ValueError [rm; " Is not a known resample method."])
        {| heap := heap w; sent := sent w ++ [req] |}) /\
     (rm ∈ RESAMPLE_METHODS ->
      returns (RasterRDD.to_tiled_layer self extent layout crs size rm) w
        (length (heap w))
        {| heap := heap w ++
                   [derived_from TiledRasterRDD_class this
                      (srdd_tileToLayout (srdd this) md rm)];
           sent := sent w ++ [req; Call_tileToLayout (srdd this) md rm] |})).
Proof.
  intros Hself.
  unfold RasterRDD.to_tiled_layer, RasterRDD.collect_metadata,
    RasterRDD.tile_to_layout.
  split.
  - intros Hne. destruct extent, layout; simpl in Hne; try congruence; reflexivity.
  - intros Heq.
    destruct extent, layout; simpl in Heq; try discriminate;
      (do 2 eexists; split; [run; rewrite Hself; reflexivity|]);
      (split; intros Hrm; run; rewrite Hself; simpl;
       (case_decide; [|]); try contradiction;
       simpl; rewrite ?Hself; simpl; rewrite <- ?app_assoc; reflexivity).
Qed.

End Precedence.

Section ConversionMore.
Context {C : Constants} {R : Runtime} {E : RasterEngine}.

(** On an untiled collection [convert_data_type] goes through exactly for
    the tokens of [CELL_TYPES]: a known token is sent once and the answer
    comes back in a new untiled wrapper; the call returns for no other
    token. *)
Theorem raster_convert_data_type_known_tokens (self : ref) (this : Wrapper)
    (new_type : string) (w : World) :
  heap w !! self = Some this ->
  (new_type ∈ CELL_TYPES ->
   returns (RasterRDD.convert_data_type self new_type) w (length (heap w))
     {| heap := heap w ++
                [derived_from RasterRDD_class this
                   (srdd_convertDataType (srdd this) new_type)];
        sent := sent w ++ [Call_convertDataType (srdd this) new_type] |}) /\
  ((exists r w', returns (RasterRDD.convert_data_type self new_type) w r w') ->
   new_type ∈ CELL_TYPES).
Proof.
  intros Hself. unfold RasterRDD.convert_data_type. split.
  - intros Hin. case_decide; [contradiction|]. run. rewrite Hself. reflexivity.
  - intros (r & w' & Hrun). case_decide as Hnot.
    + unfold returns, raise in Hrun. discriminate.
    + destruct (decide (new_type ∈ CELL_TYPES)); [assumption|contradiction].
Qed.

End ConversionMore.

(** ** Reclassification, continued *)

Section ExpandMore.

Lemma expand_typed (data_type : pytype) (items : value_map_items) (d : dict) :
  scalars_typed data_type items ->
  exists d', expand data_type items d = inr d'.
Proof.
  intros Hty. revert d. induction Hty as [|[key v] items Hkey _ IH]; intros d; simpl.
  - eauto.
  - destruct key as [n|ks]; simpl in *.
    + rewrite Hkey. simpl. apply IH.
    + apply IH.
Qed.

Lemma expand_untyped (data_type : pytype) (pre post : value_map_items)
    (n v : number) (d : dict) :
  scalars_typed data_type pre ->
  number_isinstance n data_type = false ->
  expand data_type (pre ++ (Scalar n, v) :: post) d = inl (not_iterable n).
Proof.
  intros Hpre Hn. rewrite expand_app.
  destruct (expand_typed data_type pre d Hpre) as [d' ->].
  simpl. rewrite Hn. reflexivity.
Qed.

Lemma dict_set_int_keys (d : dict) (a : Z) (v : number) :
  Forall (fun n => is_int n = true) d.*1 ->
  Forall (fun n => is_int n = true) (dict_set d (PyInt a) v).*1.
Proof.
  induction d as [|[k' v'] d IH]; csimpl; intros Hd.
  - repeat constructor.
  - apply Forall_cons in Hd as [Hk Hd].
    destruct (number_eqb k' (PyInt a)); csimpl; constructor; auto.
Qed.

Lemma dict_get_set_int (d : dict) (a k : Z) (v : number) :
  Forall (fun n => is_int n = true) d.*1 ->
  dict_get (dict_set d (PyInt a) v) (PyInt k) =
  if (a =? k)%Z then Some v else dict_get d (PyInt k).
Proof.
  induction d as [|[k' v'] d IH]; csimpl; intros Hd.
  - reflexivity.
  - apply Forall_cons in Hd as [Hk Hd]. destruct k' as [b|f]; [|discriminate].
    simpl. destruct (Z.eqb_spec b a) as [->|Hba]; simpl.
    + destruct (Z.eqb_spec a k); reflexivity.
    + rewrite (IH Hd). destruct (Z.eqb_spec b k) as [->|]; [|reflexivity].
      destruct (Z.eqb_spec a k); [congruence | reflexivity].
Qed.

Lemma fold_dict_set_int (ks : list number) (v : number) (d : dict) (k : Z) :
  Forall (fun n => is_int n = true) ks ->
  Forall (fun n => is_int n = true) d.*1 ->
  let d' := fold_left (fun d k => dict_set d k v) ks d in
  Forall (fun n => is_int n = true) d'.*1 /\
  dict_get d' (PyInt k) =
  if existsb (number_eqb (PyInt k)) ks then Some v else dict_get d (PyInt k).
Proof.
  intros Hks. revert d. induction Hks as [|n ks Hn _ IH]; intros d Hd; simpl.
  - auto.
  - destruct n as [a|f]; [|discriminate]. simpl.
    destruct (IH (dict_set d (PyInt a) v) (dict_set_int_keys d a v Hd)) as [Hkeys Hget].
    split; [exact Hkeys|]. simpl in Hget. rewrite Hget, dict_get_set_int by exact Hd.
    rewrite (Z.eqb_sym k a).
    destruct (existsb (number_eqb (PyInt k)) ks); simpl;
      [rewrite orb_true_r; reflexivity|].
    rewrite orb_false_r. reflexivity.
Qed.

Lemma expand_int_lookup (items : value_map_items) (d d' : dict) (k : Z) :
  all_int items ->
  Forall (fun n => is_int n = true) d.*1 ->
  expand TyInt items d = inr d' ->
  dict_get d' (PyInt k) =
  match last_value k items with
  | Some v => Some v
  | None => dict_get d (PyInt k)
  end.
Proof.
  intros Hall. revert d. induction Hall as [|[key v] items Hkey _ IH];
    intros d Hd Hrun; simpl in *.
  - congruence.
  - destruct key as [n|ks]; simpl in *.
    + apply Forall_cons in Hkey as [Hn _]. destruct n as [a|f]; [|discriminate].
      simpl in Hrun.
      rewrite (IH _ (dict_set_int_keys d a v Hd) Hrun).
      destruct (last_value k items); [reflexivity|].
      rewrite dict_get_set_int by exact Hd. rewrite orb_false_r, (Z.eqb_sym k a).
      destruct (a =? k)%Z; reflexivity.
    + destruct (fold_dict_set_int ks v d k Hkey Hd) as [Hkeys Hget].
      rewrite (IH _ Hkeys Hrun).
      destruct (last_value k items); [reflexivity|].
      simpl in Hget. rewrite Hget.
      destruct (existsb (number_eqb (PyInt k)) ks); reflexivity.
Qed.

Lemma dict_set_keys (d : dict) (k v x : number) :
  x ∈ (dict_set d k v).*1 -> x ∈ d.*1 \/ x = k.
Proof.
  induction d as [|[k' v'] d IH]; csimpl.
  - intros ->%list_elem_of_singleton. right. reflexivity.
  - destruct (number_eqb k' k); csimpl; intros [->|Hx]%elem_of_cons.
    + left. apply list_elem_of_here.
    + left. apply list_elem_of_further. exact Hx.
    + left. apply list_elem_of_here.
    + destruct (IH Hx) as [Hin| ->]; [left | right; reflexivity].
      apply list_elem_of_further. exact Hin.
Qed.

Lemma dict_set_int_NoDup (d : dict) (a : Z) (v : number) :
  Forall (fun n => is_int n = true) d.*1 ->
  NoDup d.*1 -> NoDup (dict_set d (PyInt a) v).*1.
Proof.
  induction d as [|[k' v'] d IH]; csimpl; intros Hd Hnd.
  - apply NoDup_singleton.
  - apply Forall_cons in Hd as [Hk Hd]. apply NoDup_cons in Hnd as [Hout Hnd].
    destruct k' as [b|f]; [|discriminate]. simpl.
    destruct (Z.eqb_spec b a) as [->|Hba]; csimpl.
    + apply NoDup_cons. split; assumption.
    + apply NoDup_cons. split; [|apply IH; assumption].
      intros [Hin|Heq]%dict_set_keys; [contradiction | congruence].
Qed.

Lemma fold_dict_set_int_NoDup (ks : list number) (v : number) (d : dict) :
  Forall (fun n => is_int n = true) ks ->
  Forall (fun n => is_int n = true) d.*1 ->
  NoDup d.*1 ->
  NoDup (fold_left (fun d k => dict_set d k v) ks d).*1.
Proof.
  intros Hks. revert d. induction Hks as [|n ks Hn _ IH]; intros d Hd Hnd; simpl.
  - exact Hnd.
  - destruct n as [a|f]; [|discriminate].
    apply IH; [apply dict_set_int_keys | apply dict_set_int_NoDup]; assumption.
Qed.

(** Entered into a dictionary of distinct [int] keys, the break values of
    an all-[int] map leave a dictionary of distinct [int] keys. *)
Lemma expand_int_keys (items : value_map_items) (d d' : dict) :
  all_int items ->
  Forall (fun n => is_int n = true) d.*1 ->
  NoDup d.*1 ->
  expand TyInt items d = inr d' ->
  Forall (fun n => is_int n = true) d'.*1 /\ NoDup d'.*1.
Proof.
  intros Hall. revert d. induction Hall as [|[key v] items Hkey _ IH];
    intros d Hd Hnd Hrun; simpl in *.
  - injection Hrun as <-. split; assumption.
  - destruct key as [n|ks]; simpl in *.
    + apply Forall_cons in Hkey as [Hn _]. destruct n as [a|f]; [|discriminate].
      simpl in Hrun.
      apply (IH _ (dict_set_int_keys d a v Hd) (dict_set_int_NoDup d a v Hd Hnd) Hrun).
    + destruct (fold_dict_set_int ks v d 0 Hkey Hd) as [Hkeys _].
      apply (IH _ Hkeys (fold_dict_set_int_NoDup ks v d Hkey Hd Hnd) Hrun).
Qed.

(** In a dictionary of distinct [int] keys, the entries are what the
    lookups of [int]s find. *)
Lemma dict_get_entries (d : dict) (key value : number) :
  Forall (fun n => is_int n = true) d.*1 ->
  NoDup d.*1 ->
  (key, value) ∈ d <-> exists k, key = PyInt k /\ dict_get d (PyInt k) = Some value.
Proof.
  induction d as [|[k' v'] d IH]; csimpl; intros Hd Hnd.
  - split; [intros []%elem_of_nil | intros (k & _ & [=])].
  - apply Forall_cons in Hd as [Hk Hd]. apply NoDup_cons in Hnd as [Hout Hnd].
    destruct k' as [b|f]; [|discriminate].
    rewrite elem_of_cons, (IH Hd Hnd). split.
    + intros [[= -> ->]|(k & -> & Hget)].
      * exists b. simpl. rewrite Z.eqb_refl. auto.
      * exists k. split; [reflexivity|]. simpl.
        destruct (Z.eqb_spec b k) as [->|]; [|exact Hget].
        exfalso. apply Hout.
        assert (Hin : (PyInt k, value) ∈ d) by (apply (IH Hd Hnd); eauto).
        apply (list_elem_of_fmap_2 fst) in Hin. exact Hin.
    + intros (k & -> & Hget). simpl in Hget.
      destruct (Z.eqb_spec b k) as [->|].
      * injection Hget as ->. left. reflexivity.
      * right. eauto.
Qed.

End ExpandMore.

Section ReclassifyMore.
Context {C : Constants} {R : Runtime} {E : RasterEngine}.

(** [_reclassify] goes through exactly when every scalar key of the value
    map is an instance of [data_type].  Then one request goes out.
    Otherwise the first scalar key that is not one ends the call with
    [TypeError], and nothing is sent: the whole map is walked before the
    engine is asked. *)
Theorem reclassify_wants_typed_scalars (srdd : JavaObject) (data_type : pytype)
    (bs : string) (rn : option number) (w : World) :
  (forall items,
      scalars_typed data_type items ->
      exists h r,
        returns (_reclassify srdd items data_type bs rn) w h
          {| heap := heap w; sent := sent w ++ [r] |}) /\
  (forall pre n v post,
      scalars_typed data_type pre ->
      number_isinstance n data_type = false ->
      raises (_reclassify srdd (pre ++ (Scalar n, v) :: post) data_type bs rn) w
        (not_iterable n) w).
Proof.
  split.
  - intros items Hty. destruct (expand_typed data_type items [] Hty) as [d Hd].
    unfold _reclassify. run. rewrite Hd. simpl.
    destruct data_type; destruct (negb (truthy rn)); eauto.
  - intros pre n v post Hpre Hn. unfold _reclassify. run.
    rewrite (expand_untyped data_type pre post n v [] Hpre Hn). reflexivity.
Qed.

(** For a value map of integer break values and [data_type] [int], the
    dictionary that goes out maps each break value to the output value of
    the last entry that names it, alone or in a group, and holds nothing
    else: its keys are pairwise distinct, and its entries are exactly the
    [int] keys that some entry of the map names, each with that value. *)
Theorem reclassify_int_dictionary (srdd : JavaObject) (items : value_map_items)
    (bs : string) (rn : option number) (w : World) :
  all_int items ->
  exists new_dict nodata,
    returns (_reclassify srdd items TyInt bs rn) w
      (srdd_reclassify srdd new_dict bs nodata)
      {| heap := heap w;
         sent := sent w ++ [Call_reclassify srdd new_dict bs nodata] |} /\
    (forall k, dict_get new_dict (PyInt k) = last_value k items) /\
    NoDup new_dict.*1 /\
    (forall key value,
        (key, value) ∈ new_dict <->
        exists k, key = PyInt k /\ last_value k items = Some value).
Proof.
  intros Hall.
  assert (Hty : scalars_typed TyInt items).
  { unfold scalars_typed. eapply Forall_impl; [exact Hall|].
    intros [[n|ks] v] Hm; simpl in *; [|exact I].
    apply Forall_cons in Hm as [Hn _]. destruct n; [reflexivity | discriminate]. }
  destruct (expand_typed TyInt items [] Hty) as [d Hd].
  exists d, (if negb (truthy rn) then Some (PyInt NODATAINT) else rn). split.
  - unfold _reclassify. run. rewrite Hd. simpl.
    destruct (negb (truthy rn)); reflexivity.
  - assert (Hget : forall k, dict_get d (PyInt k) = last_value k items).
    { intros k. rewrite (expand_int_lookup items [] d k Hall (Forall_nil_2 _) Hd).
      destruct (last_value k items); reflexivity. }
    destruct (expand_int_keys items [] d Hall (Forall_nil_2 _) (NoDup_nil_2) Hd)
      as [Hint Hnd].
    split; [exact Hget|]. split; [exact Hnd|].
    intros key value. rewrite (dict_get_entries d key value Hint Hnd).
    split; intros (k & -> & Hk); exists k; (split; [reflexivity|]);
      [rewrite <- Hget | rewrite Hget]; exact Hk.
Qed.

End ReclassifyMore.

(** ** Derived collections, continued *)

Section Raising.
Context {R : Runtime}.

Lemma raises_bind {A B : Type} (m : M A) (k : A -> M B) w e w'' :
  raises (m ≫= k) w e w'' <->
  raises m w e w'' \/ exists a w', returns m w a w' /\ raises (k a) w' e w''.
Proof.
  unfold raises, returns, mbind, M_bind. split.
  - destruct (m w) as [[e'|a] w'] eqn:Hm.
    + intros [= -> ->]. left. reflexivity.
    + intros Hk. right. eauto.
  - intros [->|(a & w' & -> & Hk)]; [reflexivity | exact Hk].
Qed.

Lemma raises_ret {A : Type} (a : A) w e w' : raises (mret a) w e w' <-> False.
Proof. unfold raises, mret, M_ret. split; [discriminate | tauto]. Qed.

Lemma raises_raise {A : Type} (e0 : exn) w e w' :
  raises (raise (A := A) e0) w e w' <-> e = e0 /\ w' = w.
Proof.
  unfold raises, raise. split.
  - intros [= -> ->]. auto.
  - intros [-> ->]. reflexivity.
Qed.

Lemma raises_call {A : Type} (r : Request) (x : A) w e w' :
  raises (call r x) w e w' <-> False.
Proof. unfold raises, call. split; [discriminate | tauto]. Qed.

Lemma raises_attrs (self : ref) w e w' :
  raises (attrs self) w e w' <->
  heap w !! self = None /\ e = ReferenceError ["no such object"] /\ w' = w.
Proof.
  unfold raises, attrs. split.
  - destruct (heap w !! self); intros [= <- <-]; auto.
  - intros (-> & -> & ->). reflexivity.
Qed.

Lemma raises_lift {A : Type} (x : exn + A) w e w' :
  raises (lift x) w e w' <-> x = inl e /\ w' = w.
Proof.
  unfold raises, lift. split.
  - intros [= -> ->]. auto.
  - intros [-> ->]. reflexivity.
Qed.

Lemma raises_init cls g t s w e w' : raises (__init__ cls g t s) w e w' <-> False.
Proof. unfold raises, __init__, new. split; [discriminate | tauto]. Qed.

End Raising.

(** Takes apart a run that raised, one construct at a time. *)
Ltac raised :=
  repeat (cbv beta zeta in *;
    match goal with
    | H : False |- _ => destruct H
    | H : raises (_ ≫= _) _ _ _ |- _ =>
        apply raises_bind in H as [?|(? & ? & ? & ?)]
    | H : raises (mret _) _ _ _ |- _ => apply raises_ret in H
    | H : raises (raise _) _ _ _ |- _ => apply raises_raise in H as [-> ->]
    | H : raises (call _ _) _ _ _ |- _ => apply raises_call in H
    | H : raises (attrs _) _ _ _ |- _ => apply raises_attrs in H as (? & -> & ->)
    | H : raises (lift _) _ _ _ |- _ => apply raises_lift in H as [? ->]
    | H : raises (__init__ _ _ _ _) _ _ _ |- _ => apply raises_init in H
    | H : raises (match ?x with _ => _ end) _ _ _ |- _ => destruct x eqn:?
    end).

Section DerivedMore.
Context {C : Constants} {R : Runtime} {L : LayoutEngine} {E : RasterEngine}
  {T : TiledEngine}.

Lemma for_each_raise_keeps_heap {A B : Type} (f : A -> M B) (xs : list A) :
  (forall x, keeps_heap (f x)) ->
  (forall x, raise_keeps_heap (f x)) ->
  raise_keeps_heap (for_each f xs).
Proof.
  intros Hret Hraise. induction xs as [|x xs IH]; intros w e w' Hrun; simpl in Hrun.
  - raised.
  - raised.
    + eapply Hraise; eassumption.
    + match goal with
      | H1 : returns (f x) _ _ _, H2 : raises (for_each f xs) _ _ _ |- _ =>
          apply Hret in H1; apply IH in H2; congruence
      end.
Qed.

Lemma for_each_init_never_raises cls (this : Wrapper) (hs : list JavaObject) :
  raise_keeps_heap
    (for_each (fun s => __init__ cls (geopysc this) (rdd_type this) s) hs).
Proof.
  intros w e w' Hrun. unfold raises in Hrun.
  rewrite for_each_init_runs in Hrun. discriminate.
Qed.

Lemma reclassify_raise_keeps_heap s vm dt bs rn :
  raise_keeps_heap (_reclassify s vm dt bs rn).
Proof.
  intros w e w' Hrun. unfold _reclassify in Hrun. raised; reflexivity.
Qed.

Lemma attrs_of_srdd_raise_keeps_heap (x : ref) :
  raise_keeps_heap (o ← attrs x; mret (srdd o)).
Proof. intros w e w' Hrun. raised; returned; reflexivity. Qed.

(** A call of a collection-returning method that raises has created no
    wrapper and changed none: the heap is the one the call started
    with. *)
Theorem a_failed_call_leaves_the_heap (d : derivation) (self : ref) (w : World)
    (e : exn) (w' : World) :
  raises (derive self d) w e w' ->
  heap w' = heap w.
Proof.
  intros Hrun.
  destruct d; unfold derive in Hrun; cbv zeta in Hrun;
    unfold RasterRDD.to_tiled_layer, RasterRDD.collect_metadata,
      RasterRDD.convert_data_type, RasterRDD.reproject, RasterRDD.cut_tiles,
      RasterRDD.tile_to_layout, RasterRDD.reclassify,
      TiledRasterRDD.convert_data_type, TiledRasterRDD.reproject,
      TiledRasterRDD.repartition, TiledRasterRDD.tile_to_layout,
      TiledRasterRDD.pyramid, TiledRasterRDD.focal, TiledRasterRDD.mask,
      TiledRasterRDD.cost_distance, TiledRasterRDD.reclassify,
      TiledRasterRDD._process_operation, TiledRasterRDD.layer_metadata in Hrun;
    raised; returned; simpl in *;
    repeat match goal with
      | H : returns (_reclassify _ _ _ _ _) _ _ _ |- _ =>
          apply reclassify_keeps_heap in H; simpl in H
      | H : raises (_reclassify _ _ _ _ _) _ _ _ |- _ =>
          apply reclassify_raise_keeps_heap in H; simpl in H
      | H : returns (for_each (fun x => o ← attrs x; mret (srdd o)) _) _ _ _ |- _ =>
          apply (for_each_keeps_heap _ _ attrs_of_srdd_keeps_heap) in H; simpl in H
      | H : raises (for_each (fun x => o ← attrs x; mret (srdd o)) _) _ _ _ |- _ =>
          apply (for_each_raise_keeps_heap _ _ attrs_of_srdd_keeps_heap
                   attrs_of_srdd_raise_keeps_heap) in H; simpl in H
      | H : raises (for_each (fun s => __init__ _ _ _ s) _) _ _ _ |- _ =>
          apply for_each_init_never_raises in H; simpl in H
      end;
    try congruence; try reflexivity.
Qed.

End DerivedMore.

Section DerivedClass.
Context {C : Constants} {R : Runtime} {L : LayoutEngine} {E : RasterEngine}
  {T : TiledEngine}.

Lemma derive_extends_class (d : derivation) (self : ref) (this : Wrapper)
    (w : World) (rs : list ref) (w' : World) :
  heap w !! self = Some this ->
  returns (derive self d) w rs w' ->
  exists hs, extended_by (result_class d) this hs w rs w'.
Proof.
  intros Hself Hrun.
  destruct d; unfold derive in Hrun; cbv zeta in Hrun;
    unfold RasterRDD.to_tiled_layer, RasterRDD.collect_metadata,
      RasterRDD.convert_data_type, RasterRDD.reproject, RasterRDD.cut_tiles,
      RasterRDD.tile_to_layout, RasterRDD.reclassify,
      TiledRasterRDD.convert_data_type, TiledRasterRDD.reproject,
      TiledRasterRDD.repartition, TiledRasterRDD.tile_to_layout,
      TiledRasterRDD.pyramid, TiledRasterRDD.focal, TiledRasterRDD.mask,
      TiledRasterRDD.cost_distance, TiledRasterRDD.reclassify,
      TiledRasterRDD._process_operation, TiledRasterRDD.layer_metadata in Hrun;
    returned; simpl in *;
    repeat match goal with
      | H : returns (_reclassify _ _ _ _ _) _ _ _ |- _ =>
          apply reclassify_keeps_heap in H; simpl in H
      | H : returns (for_each (fun x => o ← attrs x; mret (srdd o)) _) _ _ _ |- _ =>
          apply (for_each_keeps_heap _ _ attrs_of_srdd_keeps_heap) in H; simpl in H
      | H : heap ?a = heap _ |- _ => is_var a; rewrite H in *; clear H
      end;
    repeat match goal with
      | H : heap w !! self = Some ?x |- _ =>
          lazymatch x with
          | this => fail
          | _ => assert (x = this) by congruence; subst x
          end
      end;
    try (eexists [_]; split; simpl; reflexivity).
  match goal with
  | H : returns (for_each _ _) _ _ _ |- _ =>
      apply for_each_init_extends in H; eexists; exact H
  end.
Qed.

(** The wrappers a collection-returning method hands back belong to the
    class fixed by the method, whatever the class of the receiver, and
    carry the receiver's session context. *)
Theorem derived_collections_class_and_context (d : derivation) (self : ref)
    (this : Wrapper) (w : World) (rs : list ref) (w' : World) :
  heap w !! self = Some this ->
  returns (derive self d) w rs w' ->
  forall r, r ∈ rs ->
    exists o, heap w' !! r = Some o /\
              class_of o = result_class d /\ geopysc o = geopysc this.
Proof.
  intros Hself Hrun r Hr.
  destruct (derive_extends_class d self this w rs w' Hself Hrun) as (hs & -> & Hheap).
  apply elem_of_seq in Hr as [Hlo Hhi].
  rewrite Hheap, lookup_app_r, list_lookup_fmap by exact Hlo.
  destruct (lookup_lt_is_Some_2 hs (r - length (heap w))) as [s Hs]; [lia|].
  rewrite Hs. simpl. eauto.
Qed.

End DerivedClass.

(** ** Stitching, summaries and rasterizing *)

Section SummaryFacts.
Context {C : Constants} {R : Runtime} {S : Shapes} {Q : SummaryEngine}.

(** [stitch] on a layer that is not spatial raises [ValueError] and asks
    nothing.  On a spatial layer it asks once and returns the first array
    the answer decodes to; an answer that decodes to nothing ends the
    call with [IndexError]. *)
Theorem stitch_outcomes (self : ref) (this : Wrapper) (s : Session) :
  heap (world s) !! self = Some this ->
  let answer := srdd_stitch (srdd this) in
  let s' := {| world := world s; asked := asked s ++ [Ask_stitch (srdd this)] |} in
  (rdd_type this <> SPATIAL ->
   TiledRasterRDD_more.stitch self s =
   (inl (ValueError
           ["Only TiledRasterRDDs with a rdd_type of Spatial can use stitch()"]), s)) /\
  (rdd_type this = SPATIAL ->
   forall t rest, loads answer.2 TILE answer.1 = t :: rest ->
     TiledRasterRDD_more.stitch self s = (inr t, s')) /\
  (rdd_type this = SPATIAL ->
   loads answer.2 TILE answer.1 = [] ->
   TiledRasterRDD_more.stitch self s =
   (inl (IndexError ["list index out of range"]), s')).
Proof.
  intros Hself answer s'.
  unfold TiledRasterRDD_more.stitch, mbind, N_bind, within, attrs, ask, throw.
  rewrite Hself. simpl. destruct s as [w q]. simpl in *.
  split; [|split].
  - intros Hty. case_decide; [reflexivity | contradiction].
  - intros Hty t rest Hl. case_decide; [contradiction|]. fold answer.
    rewrite Hl. reflexivity.
  - intros Hty Hl. case_decide; [contradiction|]. fold answer.
    rewrite Hl. reflexivity.
Qed.

(** What the polygonal summaries refuse, each time without asking the
    engine.  [polygonal_min], [polygonal_max] and [polygonal_sum] look at
    [data_type] first: a type other than [int] and [float] raises
    [TypeError], whatever the geometry.  After that, and in
    [polygonal_mean], a geometry that is neither text, a polygon nor a
    multi-polygon raises [ValueError]. *)
Theorem polygonal_summary_refusals (self : ref) (s : Session) :
  (forall geometry,
      let err := TypeError ["data_type must be either int or float."] in
      TiledRasterRDD_more.polygonal_min self geometry TyStr s = (inl err, s) /\
      TiledRasterRDD_more.polygonal_max self geometry TyStr s = (inl err, s) /\
      TiledRasterRDD_more.polygonal_sum self geometry TyStr s = (inl err, s)) /\
  (forall geometry,
      geometry = NotAGeometry \/
      (exists g, geometry = GeometryShape g /\ kind_of g = OtherShape) ->
      let err := ValueError
                   ["geometry must be either a Polygon, MultiPolygon, or a String"] in
      (forall data_type, data_type <> TyStr ->
          TiledRasterRDD_more.polygonal_min self geometry data_type s = (inl err, s) /\
          TiledRasterRDD_more.polygonal_max self geometry data_type s = (inl err, s) /\
          TiledRasterRDD_more.polygonal_sum self geometry data_type s = (inl err, s)) /\
      TiledRasterRDD_more.polygonal_mean self geometry s = (inl err, s)).
Proof.
  split.
  - intros geometry. repeat split.
  - intros geometry Hgeo err.
    assert (Hbad : forall (A : Type) (op : string -> N A),
               TiledRasterRDD_more._process_polygonal_summary geometry op s =
               (inl err, s)).
    { intros A op. unfold TiledRasterRDD_more._process_polygonal_summary.
      destruct Hgeo as [->|(g & -> & Hk)]; [reflexivity|]. rewrite Hk. reflexivity. }
    split; [|apply Hbad].
    intros data_type Hdt.
    unfold TiledRasterRDD_more.polygonal_min, TiledRasterRDD_more.polygonal_max,
      TiledRasterRDD_more.polygonal_sum.
    destruct data_type; try congruence; repeat split; apply Hbad.
Qed.

(** A polygon or multi-polygon and its WKT text are one and the same
    argument to each polygonal summary: the two calls end the same way
    from any session. *)
Theorem polygon_or_its_text (self : ref) (g : Geometry) (s : Session) :
  kind_of g = Polygon \/ kind_of g = MultiPolygon ->
  let shape := GeometryShape g in
  let text := GeometryText (dumps g) in
  (forall data_type,
      TiledRasterRDD_more.polygonal_min self shape data_type s =
        TiledRasterRDD_more.polygonal_min self text data_type s /\
      TiledRasterRDD_more.polygonal_max self shape data_type s =
        TiledRasterRDD_more.polygonal_max self text data_type s /\
      TiledRasterRDD_more.polygonal_sum self shape data_type s =
        TiledRasterRDD_more.polygonal_sum self text data_type s) /\
  TiledRasterRDD_more.polygonal_mean self shape s =
    TiledRasterRDD_more.polygonal_mean self text s.
Proof.
  intros Hk shape text.
  assert (Hsame : forall (A : Type) (op : string -> N A),
             TiledRasterRDD_more._process_polygonal_summary shape op s =
             TiledRasterRDD_more._process_polygonal_summary text op s).
  { intros A op. unfold TiledRasterRDD_more._process_polygonal_summary, shape, text.
    destruct Hk as [-> | ->]; reflexivity. }
  split; [|apply Hsame].
  intros data_type.
  unfold TiledRasterRDD_more.polygonal_min, TiledRasterRDD_more.polygonal_max,
    TiledRasterRDD_more.polygonal_sum.
  destruct data_type; repeat split; apply Hsame.
Qed.

(** Where [rasterize] goes.  The geometry is WKT text or a shapely
    geometry of any kind, which stands for its text.  With an instant
    other than zero and a type other than [SPATIAL] the temporal
    rasterizer is asked; with no instant, or the instant zero, and the
    type [SPATIAL] the spatial one; in both cases the answer comes back in
    a new, uncached wrapper, and an EPSG code goes out in decimal.  Every
    other combination raises [TypeError] and asks nothing: an instant
    other than zero on a spatial type, and no instant or the instant zero
    on any other type.  An object that is no geometry raises [TypeError]
    before any of this is looked at. *)
Theorem rasterize_routes (cls : wrapper_class) (geopysc : GeoPyContext)
    (rdd_type : string) (geometry : geometry_arg) (wkt : string)
    (extent : Extent) (crs : crs_value) (cols rows fill_value : Z)
    (instant : option Z) (s : Session) :
  geometry = GeometryText wkt \/
  (exists g, geometry = GeometryShape g /\ wkt = dumps g) ->
  let call geometry :=
    TiledRasterRDD_more.rasterize cls geopysc rdd_type geometry extent crs
      cols rows fill_value instant s in
  let wrapped (q : Query) (h : JavaObject) :=
    (inr (length (heap (world s))),
     {| world := {| heap := heap (world s) ++
                            [ {| class_of := cls; geopysc := geopysc;
                                 rdd_type := rdd_type; srdd := h;
                                 is_cached := false |} ];
                    sent := sent (world s) |};
        asked := asked s ++ [q] |}) in
  let refused :=
    (inl (TypeError ["Abiguous inputs. Given "; instant_repr instant;
                     " but rdd_type is SPATIAL"]), s) in
  (instant_truthy instant = true -> rdd_type <> SPATIAL ->
   call geometry = wrapped
     (Ask_rasterize_temporal (sc geopysc) wkt extent (crs_str crs) instant
        cols rows fill_value)
     (jvm_rasterize_temporal (sc geopysc) wkt extent (crs_str crs) instant
        cols rows fill_value)) /\
  (instant_truthy instant = false -> rdd_type = SPATIAL ->
   call geometry = wrapped
     (Ask_rasterize_spatial (sc geopysc) wkt extent (crs_str crs)
        cols rows fill_value)
     (jvm_rasterize_spatial (sc geopysc) wkt extent (crs_str crs)
        cols rows fill_value)) /\
  (instant_truthy instant = true -> rdd_type = SPATIAL ->
   call geometry = refused) /\
  (instant_truthy instant = false -> rdd_type <> SPATIAL ->
   call geometry = refused) /\
  call NotAGeometry =
    (inl (TypeError ["Needs to be either a Shapely Geometry or a string"]), s).
Proof.
  intros Hgeo call wrapped refused. unfold call, wrapped, refused.
  unfold TiledRasterRDD_more.rasterize, mbind, N_bind, mret, N_ret, within, ask,
    throw, __init__, new.
  destruct s as [w q].
  destruct Hgeo as [->|(g & -> & ->)]; simpl;
    (repeat split; try reflexivity; intros Hi Hty; rewrite Hi; simpl;
     [ rewrite bool_decide_true by exact Hty; reflexivity
     | rewrite bool_decide_true by exact Hty; reflexivity
     | rewrite bool_decide_false by (intros Hne; contradiction); reflexivity
     | rewrite bool_decide_false by exact Hty; reflexivity ]).
Qed.

End SummaryFacts.

(** ** The properties above, on the sample session *)

#[local] Existing Instance sample.runtime.

Lemma cache_unpersist_round_trip_witness :
  returns (r ← RDDWrapper.cache (R := sample.runtime) 1; RDDWrapper.unpersist r)
    sample.world 1
    {| heap := heap sample.world;
       sent := [Call_persist (R := sample.runtime) 4%Z MEMORY_ONLY;
                Call_unpersist 4%Z] |}.
Proof.
  exact (cache_unpersist_round_trip (R := sample.runtime) 1 sample_more.layer_4
           sample.world eq_refl eq_refl).
Defined.

Lemma persist_touches_only_the_flag_witness :
  let memory_and_disk :=
    {| useDisk := true; useMemory := true; useOffHeap := false;
       deserialized := false; replication := 1 |} in
  exists w' : @World sample.runtime,
    returns (RDDWrapper.persist 1 memory_and_disk) sample.world 1 w' /\
    sent w' = sent sample.world ++ [Call_persist 4%Z memory_and_disk] /\
    length (heap w') = length (heap sample.world) /\
    heap w' !! 1 =
      Some {| class_of := TiledRasterRDD_class; geopysc := tt;
              rdd_type := "spatial"; srdd := 4%Z; is_cached := true |} /\
    (forall other, other <> 1 -> heap w' !! other = heap sample.world !! other).
Proof.
  exact (persist_touches_only_the_flag (R := sample.runtime) 1 sample_more.layer_4
           {| useDisk := true; useMemory := true; useOffHeap := false;
              deserialized := false; replication := 1 |}
           sample.world eq_refl eq_refl).
Defined.

Lemma pyramid_wants_power_of_two_rows_witness :
  returns (TiledRasterRDD.pyramid (C := sample.constants)
             (L := sample.layout_engine) (T := sample.tiled_engine) 1 12 10 "Average")
    sample.world [4; 5]
    {| heap := heap sample.world ++
               (derived_from TiledRasterRDD_class sample_more.layer_4 <$> [5; 6]%Z);
       sent := [Call_layerMetadata (R := sample.runtime) 4%Z;
                Call_pyramid 4%Z 12 10 "Average"] |}.
Proof.
  refine (proj1 (pyramid_wants_power_of_two_rows (C := sample.constants)
                   (L := sample.layout_engine) (T := sample.tiled_engine)
                   1 sample_more.layer_4 12%Z 10%Z "Average" sample.world
                   eq_refl _ _) _).
  - apply (bool_decide_unpack _); vm_compute; exact I.
  - reflexivity.
  - exists 8%Z. split; [lia | reflexivity].
Defined.

Lemma focal_refusals_witness :
  raises (TiledRasterRDD.focal (C := sample.constants) (T := sample.tiled_engine)
            1 "Sum" NoNeighborhood None None None)
    sample.world
    (ValueError ["neighborhood must be set or the operation must be SLOPE or ASPECT"])
    sample.world.
Proof.
  refine (proj2 (proj2 (focal_refusals (C := sample.constants)
                          (T := sample.tiled_engine) 1 sample_more.layer_4 "Sum"
                          None None None sample.world eq_refl)) _ _ _).
  - apply (bool_decide_unpack _); vm_compute; exact I.
  - discriminate.
  - discriminate.
Defined.

Lemma focal_neighborhood_object_is_forwarded_witness :
  let n := {| neighborhoods.name := "hexagon";
              neighborhoods.param_1 := sample.fl 2;
              neighborhoods.param_2 := sample.fl 0;
              neighborhoods.param_3 := sample.fl 0 |} in
  ("hexagon" ∉ @NEIGHBORHOODS sample.constants) /\
  returns (TiledRasterRDD.focal (C := sample.constants) (T := sample.tiled_engine)
             1 "Sum" (NeighborhoodObject n) None None None)
    sample.world 4
    {| heap := heap sample.world ++
               [derived_from TiledRasterRDD_class sample_more.layer_4 5%Z];
       sent := [Call_focal (R := sample.runtime) 4%Z "Sum" "hexagon"
                  (sample.fl 2) (sample.fl 0) (sample.fl 0)] |}.
Proof.
  split; [apply (bool_decide_unpack _); vm_compute; exact I|].
  refine (focal_neighborhood_object_is_forwarded (C := sample.constants)
            (T := sample.tiled_engine) 1 sample_more.layer_4 "Sum" _
            None None None sample.world eq_refl _).
  apply (bool_decide_unpack _); vm_compute; exact I.
Defined.

Lemma lookup_needs_a_spatial_layer_witness :
  raises (TiledRasterRDD.lookup (C := sample.constants)
            (L := sample.layout_engine) (T := sample.tiled_engine) 3 0 0)
    sample.world
    (ValueError ["Only TiledRasterRDDs with a rdd_type of Spatial can use lookup()"])
    sample.world.
Proof.
  refine (lookup_needs_a_spatial_layer (C := sample.constants)
            (L := sample.layout_engine) (T := sample.tiled_engine)
            3 sample_more.layer_16 0%Z 0%Z sample.world eq_refl _).
  discriminate.
Defined.

Lemma lookup_inside_bounds_witness :
  returns (TiledRasterRDD.lookup (C := sample.constants)
             (L := sample.layout_engine) (T := sample.tiled_engine) 1 2 3)
    sample.world [5%Z]
    {| heap := heap sample.world;
       sent := [Call_layerMetadata (R := sample.runtime) 4%Z; Call_lookup 4%Z 2 3] |}.
Proof.
  refine (proj1 (lookup_inside_bounds (C := sample.constants)
                   (L := sample.layout_engine) (T := sample.tiled_engine)
                   1 sample_more.layer_4 2%Z 3%Z sample.world eq_refl eq_refl _ _)
                [5%Z] _).
  - simpl. lia.
  - simpl. lia.
  - repeat constructor. exists []. reflexivity.
Defined.

Lemma arithmetic_with_a_number_witness :
  returns (TiledRasterRDD._process_operation (L := sample.layout_engine)
             (T := sample.tiled_engine) 3 (OperandNumber (PyInt 2)) localMultiply)
    sample.world 4
    {| heap := heap sample.world ++
               [derived_from TiledRasterRDD_class sample_more.layer_16 17%Z];
       sent := [Call_local (R := sample.runtime) localMultiply 16%Z
                  (ArgNumber (PyInt 2))] |}.
Proof.
  exact (arithmetic_with_a_number (L := sample.layout_engine)
           (T := sample.tiled_engine) 3 sample_more.layer_16 (PyInt 2)
           localMultiply sample.world eq_refl).
Defined.

Lemma arithmetic_with_a_matching_layer_witness :
  returns (TiledRasterRDD._process_operation (L := sample.layout_engine)
             (T := sample.tiled_engine) 1 (OperandObject 1) localAdd)
    sample.world 4
    {| heap := heap sample.world ++
               [derived_from TiledRasterRDD_class sample_more.layer_4 5%Z];
       sent := [Call_layerMetadata (R := sample.runtime) 4%Z;
                Call_layerMetadata 4%Z;
                Call_local localAdd 4%Z (ArgHandle 4%Z)] |}.
Proof.
  exact (arithmetic_with_a_matching_layer (L := sample.layout_engine)
           (T := sample.tiled_engine) 1 1 sample_more.layer_4 sample_more.layer_4
           localAdd sample.world eq_refl eq_refl eq_refl eq_refl eq_refl).
Defined.

Lemma arithmetic_with_anything_else_witness :
  let err := TypeError ["Local operation cannot be performed with"] in
  raises (TiledRasterRDD._process_operation (L := sample.layout_engine)
            (T := sample.tiled_engine) 1 (OperandObject 0) localAdd)
    sample.world err sample.world /\
  raises (TiledRasterRDD._process_operation (L := sample.layout_engine)
            (T := sample.tiled_engine) 1 OperandOther localAdd)
    sample.world err sample.world.
Proof.
  exact (arithmetic_with_anything_else (L := sample.layout_engine)
           (T := sample.tiled_engine) 1 0 sample_more.layer_4
           sample_more.rasters_10 localAdd sample.world eq_refl eq_refl eq_refl).
Defined.

Lemma arithmetic_with_a_list_witness :
  returns (TiledRasterRDD._process_operation (L := sample.layout_engine)
             (T := sample.tiled_engine) 1 (OperandList [3; 0]) localAdd)
    sample.world 4
    {| heap := heap sample.world ++
               [derived_from TiledRasterRDD_class sample_more.layer_4 5%Z];
       sent := [Call_local (R := sample.runtime) localAdd 4%Z
                  (ArgHandles [16; 10]%Z)] |}.
Proof.
  refine (arithmetic_with_a_list (L := sample.layout_engine)
            (T := sample.tiled_engine) 1 sample_more.layer_4 [3; 0]
            [sample_more.layer_16; sample_more.rasters_10] localAdd sample.world
            eq_refl _).
  repeat constructor.
Defined.

Lemma to_tiled_layer_outcomes_witness :
  raises (RasterRDD.to_tiled_layer (C := sample.constants)
            (L := sample.layout_engine) 0 (Is sample.an_extent) IsEmpty None 256
            "Bogus")
    sample.world
    (TypeError ["Could not collect metadata with {} and {}"]) sample.world.
Proof.
  refine (proj1 (to_tiled_layer_outcomes (C := sample.constants)
                   (L := sample.layout_engine) 0 sample_more.rasters_10
                   (Is sample.an_extent) IsEmpty None 256%Z "Bogus" sample.world
                   eq_refl) _).
  discriminate.
Defined.

Lemma raster_convert_data_type_known_tokens_witness :
  returns (RasterRDD.convert_data_type (C := sample.constants)
             (E := sample.raster_engine) 0 "int16")
    sample.world 4
    {| heap := heap sample.world ++
               [derived_from RasterRDD_class sample_more.rasters_10 11%Z];
       sent := [Call_convertDataType (R := sample.runtime) 10%Z "int16"] |}.
Proof.
  refine (proj1 (raster_convert_data_type_known_tokens (C := sample.constants)
                   (E := sample.raster_engine) 0 sample_more.rasters_10 "int16"
                   sample.world eq_refl) _).
  apply (bool_decide_unpack _); vm_compute; exact I.
Defined.

Lemma reclassify_int_dictionary_witness :
  let items := [(Group [PyInt 1; PyInt 2], PyInt 9); (Scalar (PyInt 2), PyInt 7)] in
  exists new_dict nodata,
    returns (_reclassify (C := sample.constants) (E := sample.raster_engine) 4%Z
               items TyInt "LessThanOrEqualTo" None)
      sample.world
      (srdd_reclassify (RasterEngine := sample.raster_engine) 4%Z new_dict
         "LessThanOrEqualTo" nodata)
      {| heap := heap sample.world;
         sent := [Call_reclassify (R := sample.runtime) 4%Z new_dict
                    "LessThanOrEqualTo" nodata] |} /\
    (forall k, dict_get new_dict (PyInt k) = last_value k items) /\
    NoDup new_dict.*1 /\
    (forall key value,
        (key, value) ∈ new_dict <->
        exists k, key = PyInt k /\ last_value k items = Some value).
Proof.
  refine (reclassify_int_dictionary (C := sample.constants)
            (E := sample.raster_engine) 4%Z _ "LessThanOrEqualTo" None
            sample.world _).
  repeat constructor.
Defined.

Lemma a_failed_call_leaves_the_heap_witness :
  exists (e : exn) (w' : @World sample.runtime),
    raises (derive (C := sample.constants) (L := sample.layout_engine)
              (E := sample.raster_engine) (T := sample.tiled_engine)
              1 (Tiled_arithmetic localAdd (OperandObject 2)))
           sample.world e w' /\
    sent w' <> sent sample.world /\
    heap w' = heap sample.world.
Proof.
  do 2 eexists.
  assert (Hrun : raises
    (derive (C := sample.constants) (L := sample.layout_engine)
       (E := sample.raster_engine) (T := sample.tiled_engine)
       1 (Tiled_arithmetic localAdd (OperandObject 2)))
    sample.world
    (ValueError ["Both TiledRasterRDDs need to have the same layout"])
    {| heap := heap sample.world;
       sent := [Call_layerMetadata (R := sample.runtime) 4%Z;
                Call_layerMetadata 8%Z] |})
    by (vm_compute; reflexivity).
  split; [exact Hrun|]. split; [discriminate|].
  exact (a_failed_call_leaves_the_heap (C := sample.constants)
           (L := sample.layout_engine) (E := sample.raster_engine)
           (T := sample.tiled_engine) _ _ _ _ _ Hrun).
Defined.

Lemma derived_collections_class_and_context_witness :
  exists w' : @World sample.runtime,
    returns (derive (C := sample.constants) (L := sample.layout_engine)
               (E := sample.raster_engine) (T := sample.tiled_engine)
               0 (Raster_cut_tiles (sample.metadata_of 2) "Bilinear"))
            sample.world [4] w' /\
    (forall r, r ∈ [4] ->
       exists o : @Wrapper sample.runtime,
         heap w' !! r = Some o /\
         class_of o = TiledRasterRDD_class /\ geopysc o = tt).
Proof.
  eexists. split; [vm_compute; reflexivity|].
  refine (derived_collections_class_and_context
            (C := sample.constants) (L := sample.layout_engine)
            (E := sample.raster_engine) (T := sample.tiled_engine)
            (Raster_cut_tiles (sample.metadata_of 2) "Bilinear") 0
            sample_more.rasters_10 sample.world [4] _ eq_refl _).
  vm_compute; reflexivity.
Defined.

Lemma stitch_outcomes_witness :
  TiledRasterRDD_more.stitch (C := sample.constants)
    (Q := sample_more.summary_engine) 3 sample_more.session =
  (inl (ValueError
          ["Only TiledRasterRDDs with a rdd_type of Spatial can use stitch()"]),
   sample_more.session).
Proof.
  refine (proj1 (stitch_outcomes (C := sample.constants)
                   (Q := sample_more.summary_engine)
                   3 sample_more.layer_16 sample_more.session eq_refl) _).
  discriminate.
Defined.

Lemma polygon_or_its_text_witness :
  TiledRasterRDD_more.polygonal_mean (S := sample_more.shapes)
    (Q := sample_more.summary_engine) 1 (GeometryShape sample_more.a_square)
    sample_more.session =
  TiledRasterRDD_more.polygonal_mean (S := sample_more.shapes)
    (Q := sample_more.summary_engine) 1 (GeometryText sample_more.a_square)
    sample_more.session.
Proof.
  refine (proj2 (polygon_or_its_text (S := sample_more.shapes)
                   (Q := sample_more.summary_engine) 1 sample_more.a_square
                   sample_more.session _)).
  left. reflexivity.
Defined.

Lemma rasterize_routes_witness :
  TiledRasterRDD_more.rasterize (C := sample.constants)
    (Q := sample_more.summary_engine) TiledRasterRDD_class tt "spacetime"
    (GeometryShape sample_more.a_square) sample.an_extent (CrsInt 3857) 10 10 1
    (Some 0%Z) sample_more.session =
  (inl (TypeError ["Abiguous inputs. Given "; "0"; " but rdd_type is SPATIAL"]),
   sample_more.session).
Proof.
  refine (proj1 (proj2 (proj2 (proj2
            (rasterize_routes (C := sample.constants)
               (Q := sample_more.summary_engine) TiledRasterRDD_class tt
               "spacetime" (GeometryShape sample_more.a_square)
               sample_more.a_square sample.an_extent (CrsInt 3857) 10%Z 10%Z 1%Z
               (Some 0%Z) sample_more.session _)))) eq_refl _).
  - right. exists sample_more.a_square. split; reflexivity.
  - discriminate.
Defined.
